(** * Image metadata analysis (task1_image_metadata_analysis/code.py)

    A shallow embedding of the script: the DMS-to-decimal coordinate
    normalizer, the EXIF/GPS extractor, the OCR adapter, the report
    formatter and the command-line entry point, followed by the properties
    the specification states about them.

    Python floats are IEEE-754 binary64 values, modelled by Rocq's primitive
    [float]; Python exceptions by an error monad; the collaborators the
    script only consumes (PIL's tag tables and decoder, the OCR engine, the
    language detector, parts of the Python runtime) by the fields of type
    classes. *)

From Stdlib Require Import String Ascii ZArith NArith Bool List Floats Lia.
From Stdlib Require Import DecimalString.
Import ListNotations.

Set Implicit Arguments.

(** ** Python strings *)

(** A [str] is a sequence of Unicode code points. *)
Definition pystr := list N.

Definition lit (s : string) : pystr :=
  map N_of_ascii (list_ascii_of_string s).

Definition pystr_eqb (a b : pystr) : bool :=
  if list_eq_dec N.eq_dec a b then true else false.

(** [str(n)] for an [int]. *)
Definition str_of_int (z : Z) : pystr :=
  lit (NilZero.string_of_int (Z.to_int z)).

(** The code points [str.isspace] accepts, which are those [str.strip()]
    removes when called without argument. *)
Definition isspace (c : N) : bool :=
  ((9 <=? c) && (c <=? 13) || (28 <=? c) && (c <=? 32)
   || (c =? 133) || (c =? 160) || (c =? 5760)
   || (8192 <=? c) && (c <=? 8202)
   || (c =? 8232) || (c =? 8233) || (c =? 8239) || (c =? 8287)
   || (c =? 12288))%N.

Fixpoint lstrip (s : pystr) : pystr :=
  match s with
  | c :: s' => if isspace c then lstrip s' else s
  | [] => []
  end.

Definition rstrip (s : pystr) : pystr := rev (lstrip (rev s)).

Definition strip (s : pystr) : pystr := rstrip (lstrip s).

(** ** Exceptions *)

(** [Exc] stands for an instance of [Exception] (TypeError, ValueError,
    ZeroDivisionError, ...), [BaseExc] for one that is not (KeyboardInterrupt,
    SystemExit, ...) and that [except Exception] lets through.  The payload is
    [str(e)]. *)
Inductive exn : Type :=
| Exc (msg : pystr)
| BaseExc (msg : pystr).

Inductive result (A : Type) : Type :=
| Ok (a : A)
| Raise (e : exn).

Arguments Ok {A} a.
Arguments Raise {A} e.

Definition bind {A B} (m : result A) (k : A -> result B) : result B :=
  match m with
  | Ok a => k a
  | Raise e => Raise e
  end.

(** [try: body  except Exception as e: handler(str(e))] *)
Definition try_except {A} (body : result A) (handler : pystr -> result A)
  : result A :=
  match body with
  | Raise (Exc msg) => handler msg
  | other => other
  end.

Declare Scope py_scope.
Delimit Scope py_scope with py.
Notation "x <- m ;; k" := (bind m (fun x => k))
  (at level 100, m at next level, right associativity) : py_scope.
Open Scope py_scope.

(** ** Python values *)

Inductive pykey : Type :=
| KInt (z : Z)
| KStr (s : pystr).

(** [VRational n d] is an object of a rational type (a PIL [IFDRational], a
    [fractions.Fraction]) seen through its [numerator] and [denominator]
    attributes; an [IFDRational] may carry a zero denominator. *)
#[local] Unset Elimination Schemes.
Inductive pyval : Type :=
| VNone
| VBool (b : bool)
| VInt (z : Z)
| VFloat (f : float)
| VStr (s : pystr)
| VRational (num den : Z)
| VTuple (items : list pyval)
| VList (items : list pyval)
| VDict (items : list (pykey * pyval)).
#[local] Set Elimination Schemes.

Definition pykey_eqb (a b : pykey) : bool :=
  match a, b with
  | KInt x, KInt y => (x =? y)%Z
  | KStr s, KStr t => pystr_eqb s t
  | _, _ => false
  end.

(** What of the Python runtime and of the libraries' value classes the script
    relies on without fixing it: parsing a [str] as a float, the [__float__]
    and [__bool__] of a rational object, and [str()] of a value. [None] is a
    raised [Exception]. *)
Class Runtime : Type := {
  str_float : pystr -> option float;
  rational_float : Z -> Z -> option float;
  rational_bool : Z -> Z -> bool;
  py_str : pyval -> pystr;
}.

(** [float(n)] for an [int]: rounded to nearest, ties to even; OverflowError
    when the rounded value is not finite. *)
Definition float_of_int (z : Z) : result float :=
  match binary_normalize prec emax z 0 false with
  | S754_infinity _ => Raise (Exc (lit "int too large to convert to float"))
  | sf => Ok (SF2Prim sf)
  end.

Definition int_of_bool (b : bool) : Z := if b then 1%Z else 0%Z.

Section Builtins.
Context {RT : Runtime}.

(** [bool(x)] *)
Definition py_truthy (x : pyval) : bool :=
  match x with
  | VNone => false
  | VBool b => b
  | VInt z => negb (z =? 0)%Z
  | VFloat f => negb (is_zero f)
  | VStr s => negb (Nat.eqb (length s) 0)
  | VRational n d => rational_bool n d
  | VTuple l | VList l => negb (Nat.eqb (length l) 0)
  | VDict l => negb (Nat.eqb (length l) 0)
  end.

(** [float(x)] *)
Definition py_float (x : pyval) : result float :=
  match x with
  | VFloat f => Ok f
  | VInt z => float_of_int z
  | VBool b => float_of_int (int_of_bool b)
  | VStr s =>
      match str_float s with
      | Some f => Ok f
      | None => Raise (Exc (lit "could not convert string to float"))
      end
  | VRational n d =>
      match rational_float n d with
      | Some f => Ok f
      | None => Raise (Exc (lit "rational conversion failed"))
      end
  | VNone | VTuple _ | VList _ | VDict _ =>
      Raise (Exc (lit "float() argument must be a string or a real number"))
  end.

(** [len(x)] *)
Definition py_len (x : pyval) : result nat :=
  match x with
  | VStr s => Ok (length s)
  | VTuple l | VList l => Ok (length l)
  | VDict l => Ok (length l)
  | _ => Raise (Exc (lit "object has no len()"))
  end.

Fixpoint assoc_get {V} (k : pykey) (d : list (pykey * V)) : option V :=
  match d with
  | [] => None
  | (k', v) :: d' => if pykey_eqb k k' then Some v else assoc_get k d'
  end.

(** [x[i]] for a non-negative index [i] *)
Definition py_getitem (x : pyval) (i : nat) : result pyval :=
  match x with
  | VStr s =>
      match nth_error s i with
      | Some c => Ok (VStr [c])
      | None => Raise (Exc (lit "string index out of range"))
      end
  | VTuple l | VList l =>
      match nth_error l i with
      | Some v => Ok v
      | None => Raise (Exc (lit "index out of range"))
      end
  | VDict d =>
      match assoc_get (KInt (Z.of_nat i)) d with
      | Some v => Ok v
      | None => Raise (Exc (str_of_int (Z.of_nat i)))
      end
  | _ => Raise (Exc (lit "object is not subscriptable"))
  end.

(** [a / b] on floats *)
Definition py_truediv (a b : float) : result float :=
  if is_zero b then Raise (Exc (lit "float division by zero"))
  else Ok (a / b)%float.

(** [x == s] for a [str] literal [s] *)
Definition py_eq_str (x : pyval) (s : pystr) : bool :=
  match x with
  | VStr t => pystr_eqb t s
  | _ => false
  end.

(** [x.numerator, x.denominator] when [x] has both attributes: [int] and
    [bool] are their own numerator over 1. *)
Definition rational_attrs (x : pyval) : option (pyval * pyval) :=
  match x with
  | VInt z => Some (VInt z, VInt 1)
  | VBool b => Some (VInt (int_of_bool b), VInt 1)
  | VRational n d => Some (VInt n, VInt d)
  | _ => None
  end.

(** ** The coordinate normalizer *)

Definition _rational_to_float (x : pyval) : result (option float) :=
  try_except
    (match rational_attrs x with
     | Some (num, den) =>
         a <- py_float num ;;
         b <- py_float den ;;
         q <- py_truediv a b ;;
         Ok (Some q)
     | None =>
         match x with
         | VTuple [num; den] =>
             if py_truthy den then
               a <- py_float num ;;
               b <- py_float den ;;
               q <- py_truediv a b ;;
               Ok (Some q)
             else Ok (Some 0%float)
         | _ =>
             f <- py_float x ;;
             Ok (Some f)
         end
     end)
    (fun _ => Ok None).

(** [v or 0.0] for [v] a float or [None] *)
Definition or_zero (v : option float) : float :=
  match v with
  | Some f => if is_zero f then 0%float else f
  | None => 0%float
  end.

Definition _dms_to_decimal (dms ref : pyval) : result (option float) :=
  if negb (py_truthy dms) then Ok None
  else
    n <- py_len dms ;;
    if negb (Nat.eqb n 3) then Ok None
    else
      x0 <- py_getitem dms 0 ;;
      r0 <- _rational_to_float x0 ;;
      let d := or_zero r0 in
      x1 <- py_getitem dms 1 ;;
      r1 <- _rational_to_float x1 ;;
      let m := or_zero r1 in
      x2 <- py_getitem dms 2 ;;
      r2 <- _rational_to_float x2 ;;
      let s := or_zero r2 in
      let dec := (d + (m / 60) + (s / 3600))%float in
      if py_eq_str ref (lit "S") || py_eq_str ref (lit "W")
      then Ok (Some (- dec)%float)
      else Ok (Some dec).

End Builtins.

(** ** Dictionaries *)

(** A [dict] keeps its keys in insertion order; assigning to a key already
    there replaces the value in place. *)
Fixpoint dict_set {V} (k : pykey) (v : V) (d : list (pykey * V))
  : list (pykey * V) :=
  match d with
  | [] => [(k, v)]
  | (k', v') :: d' =>
      if pykey_eqb k k' then (k', v) :: d' else (k', v') :: dict_set k v d'
  end.

(** [d.get(k)]: [None] when the key is missing. *)
Definition dict_get (k : pykey) (d : list (pykey * pyval)) : pyval :=
  match assoc_get k d with
  | Some v => v
  | None => VNone
  end.

(** [a or b] *)
Definition py_or {RT : Runtime} (a b : pyval) : pyval :=
  if py_truthy a then a else b.

(** ** The decoded image and PIL's tag tables *)

(** What the script reads of a [PIL.Image.Image]: [format], [mode], [width],
    [height], the mapping returned by [getexif()], and the raster the OCR
    engine looks at. *)
Record Image : Type := {
  img_format : pyval;
  img_mode : pyval;
  img_width : Z;
  img_height : Z;
  img_getexif : list (Z * pyval);
  img_pixels : list Z;
}.

(** [ExifTags.TAGS] and [ExifTags.GPSTAGS], by their [get], and the decoder
    behind [Image.open], applied to the bytes of a file. *)
Class Pillow : Type := {
  EXIF_TAGS : Z -> option pystr;
  GPS_TAGS : Z -> option pystr;
  image_open : list Z -> result Image;
}.

Section Extractor.
Context {RT : Runtime} {PIL : Pillow}.

(** [EXIF_TAGS.get(tag_id, str(tag_id))] *)
Definition exif_tag_name (tag_id : Z) : pystr :=
  match EXIF_TAGS tag_id with
  | Some name => name
  | None => str_of_int tag_id
  end.

(** [GPS_TAGS.get(k, str(k))]: the table has integer keys only. *)
Definition gps_tag_name (k : pykey) : pystr :=
  match k with
  | KInt z =>
      match GPS_TAGS z with
      | Some name => name
      | None => str_of_int z
      end
  | KStr s => s
  end.

(** The loop filling [exif_named]. *)
Definition exif_names (exif_raw : list (Z * pyval)) : list (pykey * pyval) :=
  fold_left
    (fun exif_named '(tag_id, value) =>
       dict_set (KStr (exif_tag_name tag_id)) value exif_named)
    exif_raw [].

(** The comprehension building [gps_named]. *)
Definition gps_names (gps_info : list (pykey * pyval))
  : list (pykey * pyval) :=
  fold_left
    (fun gps_named '(k, v) => dict_set (KStr (gps_tag_name k)) v gps_named)
    gps_info [].

(** The non-empty [gps_parsed] dictionary. *)
Record gps_record : Type := {
  raw : list (pykey * pystr);
  latitude_decimal : option float;
  longitude_decimal : option float;
}.

(** [gps_parsed]: [None] is the empty dictionary [{}]. *)
Definition gps_dict : Type := option gps_record.

(** [gps.get("latitude_decimal")], [gps.get("longitude_decimal")] *)
Definition gps_get_latitude (gps : gps_dict) : option float :=
  match gps with
  | Some g => latitude_decimal g
  | None => None
  end.

Definition gps_get_longitude (gps : gps_dict) : option float :=
  match gps with
  | Some g => longitude_decimal g
  | None => None
  end.

Record exif_data : Type := {
  exif : list (pykey * pyval);
  gps : gps_dict;
}.

(** The body of [if isinstance(gps_info, dict):]. *)
Definition parse_gps (gps_info : list (pykey * pyval)) : result gps_dict :=
  let gps_named := gps_names gps_info in
  let lat_ref := dict_get (KStr (lit "GPSLatitudeRef")) gps_named in
  let lon_ref := dict_get (KStr (lit "GPSLongitudeRef")) gps_named in
  let lat_raw := dict_get (KStr (lit "GPSLatitude")) gps_named in
  let lon_raw := dict_get (KStr (lit "GPSLongitude")) gps_named in
  lat <- (if py_truthy lat_raw && py_truthy lat_ref
          then _dms_to_decimal lat_raw lat_ref else Ok None) ;;
  lon <- (if py_truthy lon_raw && py_truthy lon_ref
          then _dms_to_decimal lon_raw lon_ref else Ok None) ;;
  Ok (Some {| raw := map (fun '(k, v) => (k, py_str v)) gps_named;
              latitude_decimal := lat;
              longitude_decimal := lon |}).

Definition extract_exif (image : Image) : result exif_data :=
  let exif_raw := img_getexif image in
  if Nat.eqb (List.length exif_raw) 0 then Ok {| exif := []; gps := None |}
  else
    let exif_named := exif_names exif_raw in
    let gps_info := dict_get (KStr (lit "GPSInfo")) exif_named in
    gps_parsed <- match gps_info with
                  | VDict items => parse_gps items
                  | _ => Ok None
                  end ;;
    Ok {| exif := exif_named; gps := gps_parsed |}.

End Extractor.

(** ** The OCR adapter *)

Record ocr_result : Type := {
  text : option pystr;
  language : option pystr;
  note : option pystr;
}.

(** The optional dependencies: [pytesseract] (its [image_to_string]) and
    langdetect's [detect], each [None] when its import failed, and
    [ImageOps.exif_transpose]. *)
Class OcrDeps : Type := {
  pytesseract : option (Image -> result pystr);
  detect : option (pystr -> result pystr);
  exif_transpose : Image -> result Image;
}.

Section Ocr.
Context {OCR : OcrDeps}.

(** The dictionary [result] is created with three [None] entries and
    updated along the way.  Inside the outer [try] the only statement that
    can raise after the first update is the call of [detect], which has its
    own handler, so the outer handler always updates the initial
    dictionary. *)
Definition try_ocr (image : Image) : result ocr_result :=
  let result0 := {| text := None; language := None; note := None |} in
  match pytesseract with
  | None =>
      Ok {| text := None; language := None;
            note := Some (lit "pytesseract not installed; skip OCR.") |}
  | Some image_to_string =>
      try_except
        (img <- exif_transpose image ;;
         text0 <- image_to_string img ;;
         let text1 := strip text0 in
         let nonempty := negb (Nat.eqb (List.length text1) 0) in
         let result1 :=
           {| text := if nonempty then Some text1 else None;
              language := language result0;
              note := note result0 |} in
         match detect with
         | Some detect_ =>
             if nonempty then
               try_except
                 (lang <- detect_ text1 ;;
                  Ok {| text := text result1; language := Some lang;
                        note := note result1 |})
                 (fun _ =>
                    Ok {| text := text result1; language := None;
                          note := note result1 |})
             else Ok result1
         | None =>
             if nonempty then
               Ok {| text := text result1; language := language result1;
                     note := Some (lit "langdetect not installed; language not detected.") |}
             else Ok result1
         end)
        (fun e =>
           Ok {| text := text result0; language := language result0;
                 note := Some (lit "OCR failed: " ++ e) |})
  end.

End Ocr.

(** ** The files and streams of a run *)

Inductive node : Type :=
| File (content : list Z)
| Dir.

Record world : Type := {
  fs : list (pystr * node);
  stdout : list pystr;
  stderr : list pystr;
}.

Fixpoint fs_lookup (path : pystr) (fs : list (pystr * node)) : option node :=
  match fs with
  | [] => None
  | (p, n) :: fs' => if pystr_eqb path p then Some n else fs_lookup path fs'
  end.

Fixpoint fs_store (path : pystr) (n : node) (fs : list (pystr * node))
  : list (pystr * node) :=
  match fs with
  | [] => [(path, n)]
  | (p, n') :: fs' =>
      if pystr_eqb path p then (p, n) :: fs' else (p, n') :: fs_store path n fs'
  end.

(** [os.path.exists(path)] *)
Definition os_path_exists (w : world) (path : pystr) : bool :=
  match fs_lookup path (fs w) with
  | Some _ => true
  | None => false
  end.

(** [print(line)] and [print(line, file=sys.stderr)] *)
Definition print (line : pystr) (w : world) : world :=
  {| fs := fs w; stdout := stdout w ++ [line]; stderr := stderr w |}.

Definition print_stderr (line : pystr) (w : world) : world :=
  {| fs := fs w; stdout := stdout w; stderr := stderr w ++ [line] |}.

(** [os.path.basename], [os.path.abspath], and the UTF-8 encoding of a text
    written to a file. *)
Class Platform : Type := {
  basename : pystr -> pystr;
  abspath : pystr -> pystr;
  utf8_encode : pystr -> list Z;
}.

(** [with open(out_path, "w", encoding="utf-8") as fh: fh.write(content)] *)
Definition write_text {OS : Platform} (path content : pystr) (w : world)
  : result unit * world :=
  match fs_lookup path (fs w) with
  | Some Dir => (Raise (Exc (lit "Is a directory")), w)
  | _ =>
      (Ok tt,
       {| fs := fs_store path (File (utf8_encode content)) (fs w);
          stdout := stdout w; stderr := stderr w |})
  end.

(** ** The analysis and the report *)

Record file_info : Type := {
  name : pystr;
  path : pystr;
  format : pyval;
  mode : pyval;
  width : Z;
  height : Z;
}.

Record summary_info : Type := {
  camera_make : pyval;
  camera_model : pyval;
  datetime_original : pyval;
  has_gps : bool;
}.

(** The dictionary [info]: the key ["ocr"] is there only when OCR was asked
    for. *)
Record info : Type := {
  i_file : file_info;
  i_exif : list (pykey * pyval);
  i_gps : gps_dict;
  i_summary : summary_info;
  i_ocr : option ocr_result;
}.

Definition is_not_None {A} (v : option A) : bool :=
  match v with
  | Some _ => true
  | None => false
  end.

(** [sep.join(lines)] *)
Fixpoint join (sep : pystr) (lines : list pystr) : pystr :=
  match lines with
  | [] => []
  | [l] => l
  | l :: rest => l ++ sep ++ join sep rest
  end.

(** What [json.dumps] accepts: [None], booleans, numbers and strings, and
    lists, tuples and dictionaries of such values (the keys of the
    dictionaries here are strings and integers, which it accepts).  A
    rational object (an [IFDRational], a [Fraction]) is none of these. *)
Fixpoint json_serialisable (v : pyval) : bool :=
  match v with
  | VNone | VBool _ | VInt _ | VFloat _ | VStr _ => true
  | VRational _ _ => false
  | VTuple l | VList l =>
      (fix all (l : list pyval) : bool :=
         match l with
         | [] => true
         | x :: l' => json_serialisable x && all l'
         end) l
  | VDict d =>
      (fix all (d : list (pykey * pyval)) : bool :=
         match d with
         | [] => true
         | (_, x) :: d' => json_serialisable x && all d'
         end) d
  end.

(** The values of [data] that are not strings, numbers or [None] by
    construction: those read from the image. *)
Definition info_serialisable (data : info) : bool :=
  json_serialisable (format (i_file data))
  && json_serialisable (mode (i_file data))
  && forallb (fun '(_, v) => json_serialisable v) (i_exif data)
  && json_serialisable (camera_make (i_summary data))
  && json_serialisable (camera_model (i_summary data))
  && json_serialisable (datetime_original (i_summary data)).

(** The text [json.dumps(data, indent=2, ensure_ascii=False)] returns for a
    document it accepts. *)
Class Json : Type := {
  json_encode : info -> pystr;
}.

(** [json.dumps(data, indent=2, ensure_ascii=False)]: a TypeError on a value
    it cannot serialise. *)
Definition json_dumps {JS : Json} (data : info) : result pystr :=
  if info_serialisable data then Ok (json_encode data)
  else Raise (Exc (lit "Object is not JSON serializable")).

Section Analysis.
Context {RT : Runtime} {PIL : Pillow} {OCR : OcrDeps} {OS : Platform}
        {JS : Json}.

(** [Image.open(path)]: the file is read and decoded. *)
Definition Image_open (w : world) (p : pystr) : result Image :=
  match fs_lookup p (fs w) with
  | Some (File content) => image_open content
  | Some Dir => Raise (Exc (lit "Is a directory"))
  | None => Raise (Exc (lit "No such file or directory"))
  end.

Definition analyze_image (w : world) (p : pystr) (do_ocr : bool)
  : result info :=
  img <- Image_open w p ;;
  let file_ := {| name := basename p; path := abspath p;
                  format := img_format img; mode := img_mode img;
                  width := img_width img; height := img_height img |} in
  exif_data_ <- extract_exif img ;;
  let exif_ := exif exif_data_ in
  let summary_ :=
    {| camera_make := dict_get (KStr (lit "Make")) exif_;
       camera_model := dict_get (KStr (lit "Model")) exif_;
       datetime_original :=
         py_or (dict_get (KStr (lit "DateTimeOriginal")) exif_)
               (dict_get (KStr (lit "DateTime")) exif_);
       has_gps :=
         is_not_None (gps_get_latitude (gps exif_data_))
         && is_not_None (gps_get_longitude (gps exif_data_)) |} in
  ocr_ <- (if do_ocr then r <- try_ocr img ;; Ok (Some r) else Ok None) ;;
  Ok {| i_file := file_; i_exif := exif_; i_gps := gps exif_data_;
        i_summary := summary_; i_ocr := ocr_ |}.

(** [f"{v}"] for a float or [None], and for a string or [None] *)
Definition fmt_float (v : option float) : pystr :=
  match v with
  | Some f => py_str (VFloat f)
  | None => lit "None"
  end.

Definition fmt_str (v : option pystr) : pystr :=
  match v with
  | Some s => s
  | None => lit "None"
  end.

Definition gps_decimal_line (g : gps_record) : pystr :=
  lit "- GPS (decimal): " ++ fmt_float (latitude_decimal g)
  ++ lit ", " ++ fmt_float (longitude_decimal g).

(** The list [lines] of [write_report], in the order of its appends. *)
Definition report_lines (data : info) : list pystr :=
  let f := i_file data in
  let s := i_summary data in
  [ lit "# Image Metadata Report: " ++ name f;
    [];
    lit "## File";
    lit "- Path: " ++ path f;
    lit "- Format: " ++ py_str (format f);
    lit "- Mode: " ++ py_str (mode f);
    lit "- Size: " ++ str_of_int (width f) ++ lit "x" ++ str_of_int (height f);
    [];
    lit "## Summary";
    strip (lit "- Camera: " ++ py_str (camera_make s) ++ lit " "
           ++ py_str (camera_model s));
    lit "- Date/Time: " ++ py_str (datetime_original s);
    lit "- GPS present: " ++ py_str (VBool (has_gps s)) ]
  ++ match i_gps data with
     | Some g => [gps_decimal_line g]
     | None => []
     end
  ++ match i_ocr data with
     | Some o =>
         [ [];
           lit "## OCR";
           lit "- Language: " ++ fmt_str (language o);
           lit "- Note: " ++ fmt_str (note o) ]
         ++ match text o with
            | Some t =>
                if Nat.eqb (List.length t) 0 then []
                else [ []; lit "### Extracted Text"; t ]
            | None => []
            end
     | None => []
     end.

Definition write_report (data : info) (out_path : pystr) (w : world)
  : result unit * world :=
  match json_dumps data with
  | Raise e => (Raise e, w)
  | Ok document =>
      let w1 := print document w in
      if negb (Nat.eqb (List.length out_path) 0)
      then write_text out_path (join [10%N] (report_lines data)) w1
      else (Ok tt, w1)
  end.

(** ** The command line *)

(** The namespace returned by [parser.parse_args()]. *)
Record args : Type := {
  image : pystr;
  ocr : bool;
  out : pystr;
}.

(** How a run ends: [sys.exit(code)], the end of [main] (status 0), or an
    exception nothing catches. *)
Inductive outcome : Type :=
| Exit (code : Z)
| Uncaught (e : exn).

Definition main (a : args) (w : world) : outcome * world :=
  if negb (os_path_exists w (image a)) then
    (Exit 1, print_stderr (lit "Error: file not found: " ++ image a) w)
  else
    match analyze_image w (image a) (ocr a) with
    | Raise e => (Uncaught e, w)
    | Ok data =>
        match write_report data (out a) w with
        | (Raise e, w') => (Uncaught e, w')
        | (Ok _, w') => (Exit 0, w')
        end
    end.

End Analysis.

(** ** Sample collaborators and inputs *)

(** A runtime to evaluate examples with: it parses no string, a rational
    object converts as numerator over denominator, and [str()] renders
    [None], booleans, integers and strings. *)
Definition sample_runtime : Runtime := {|
  str_float := fun _ => None;
  rational_float := fun n d =>
    match float_of_int n, float_of_int d with
    | Ok a, Ok b => if is_zero b then Some nan else Some (a / b)%float
    | _, _ => None
    end;
  rational_bool := fun n _ => negb (n =? 0)%Z;
  py_str := fun v =>
    match v with
    | VNone => lit "None"
    | VBool true => lit "True"
    | VBool false => lit "False"
    | VInt z => str_of_int z
    | VStr s => s
    | _ => lit "<object>"
    end;
|}.

(** A photograph with a complete GPS block, and one whose GPS block holds a
    latitude triple without its reference letter and no longitude. *)
Definition paris_image : Image := {|
  img_format := VStr (lit "JPEG");
  img_mode := VStr (lit "RGB");
  img_width := 640;
  img_height := 480;
  img_getexif :=
    [ (271%Z, VStr (lit "Canon"));
      (34853%Z,
       VDict [ (KInt 1, VStr (lit "N"));
               (KInt 2, VTuple [VRational 48 1; VRational 51 1; VRational 29 1]);
               (KInt 3, VStr (lit "E"));
               (KInt 4, VTuple [VRational 2 1; VRational 17 1; VRational 40 1]) ]) ];
  img_pixels := [];
|}.

Definition partial_gps_image : Image := {|
  img_format := VStr (lit "JPEG");
  img_mode := VStr (lit "RGB");
  img_width := 640;
  img_height := 480;
  img_getexif :=
    [ (34853%Z,
       VDict [ (KInt 2, VTuple [VRational 48 1; VRational 51 1; VRational 29 1]) ]) ];
  img_pixels := [];
|}.

(** A photograph whose GPSInfo entry is the offset of the GPS block, not a
    mapping, and one whose latitude is a bare number. *)
Definition offset_gps_image : Image := {|
  img_format := VStr (lit "JPEG");
  img_mode := VStr (lit "RGB");
  img_width := 640;
  img_height := 480;
  img_getexif := [ (34853%Z, VInt 4242) ];
  img_pixels := [];
|}.

Definition scalar_gps_image : Image := {|
  img_format := VStr (lit "JPEG");
  img_mode := VStr (lit "RGB");
  img_width := 640;
  img_height := 480;
  img_getexif :=
    [ (34853%Z, VDict [ (KInt 1, VStr (lit "N")); (KInt 2, VInt 48) ]) ];
  img_pixels := [];
|}.

(** The entries of PIL's tables the script names, and a decoder that knows
    two files. *)
Definition sample_pillow : Pillow := {|
  EXIF_TAGS := fun tag =>
    if (tag =? 271)%Z then Some (lit "Make")
    else if (tag =? 272)%Z then Some (lit "Model")
    else if (tag =? 306)%Z then Some (lit "DateTime")
    else if (tag =? 36867)%Z then Some (lit "DateTimeOriginal")
    else if (tag =? 34853)%Z then Some (lit "GPSInfo")
    else None;
  GPS_TAGS := fun tag =>
    if (tag =? 1)%Z then Some (lit "GPSLatitudeRef")
    else if (tag =? 2)%Z then Some (lit "GPSLatitude")
    else if (tag =? 3)%Z then Some (lit "GPSLongitudeRef")
    else if (tag =? 4)%Z then Some (lit "GPSLongitude")
    else None;
  image_open := fun content =>
    match content with
    | [1%Z] => Ok paris_image
    | [2%Z] => Ok partial_gps_image
    | _ => Raise (Exc (lit "cannot identify image file"))
    end;
|}.

(** No OCR engine; an engine that reads only blanks; an engine that reads a
    word while language detection fails. *)
Definition no_ocr_deps : OcrDeps := {|
  pytesseract := None;
  detect := None;
  exif_transpose := fun img => Ok img;
|}.

Definition blank_ocr_deps : OcrDeps := {|
  pytesseract := Some (fun _ => Ok (lit "  "));
  detect := Some (fun _ => Ok (lit "en"));
  exif_transpose := fun img => Ok img;
|}.

Definition failing_detect_deps : OcrDeps := {|
  pytesseract := Some (fun _ => Ok (lit " 42 "));
  detect := Some (fun _ => Raise (Exc (lit "No features in text.")));
  exif_transpose := fun img => Ok img;
|}.

Definition sample_platform : Platform := {|
  basename := fun p => p;
  abspath := fun p => lit "/" ++ p;
  utf8_encode := map Z.of_N;
|}.

Definition sample_json : Json := {|
  json_encode := fun _ => lit "{}";
|}.

Definition sample_world : world := {|
  fs := [ (lit "paris.jpg", File [1%Z]); (lit "partial.jpg", File [2%Z]) ];
  stdout := [];
  stderr := [];
|}.

(** The same two photographs as older versions of PIL decode them, each
    rational a (numerator, denominator) pair: values [json.dumps] accepts. *)
Definition paris_pairs_image : Image := {|
  img_format := VStr (lit "JPEG");
  img_mode := VStr (lit "RGB");
  img_width := 640;
  img_height := 480;
  img_getexif :=
    [ (271%Z, VStr (lit "Canon"));
      (34853%Z,
       VDict [ (KInt 1, VStr (lit "N"));
               (KInt 2, VTuple [VTuple [VInt 48; VInt 1]; VTuple [VInt 51; VInt 1];
                                VTuple [VInt 29; VInt 1]]);
               (KInt 3, VStr (lit "E"));
               (KInt 4, VTuple [VTuple [VInt 2; VInt 1]; VTuple [VInt 17; VInt 1];
                                VTuple [VInt 40; VInt 1]]) ]) ];
  img_pixels := [];
|}.

Definition partial_pairs_image : Image := {|
  img_format := VStr (lit "JPEG");
  img_mode := VStr (lit "RGB");
  img_width := 640;
  img_height := 480;
  img_getexif :=
    [ (34853%Z,
       VDict [ (KInt 2, VTuple [VTuple [VInt 48; VInt 1]; VTuple [VInt 51; VInt 1];
                                VTuple [VInt 29; VInt 1]]) ]) ];
  img_pixels := [];
|}.

Definition pairs_pillow : Pillow := {|
  EXIF_TAGS := @EXIF_TAGS sample_pillow;
  GPS_TAGS := @GPS_TAGS sample_pillow;
  image_open := fun content =>
    match content with
    | [3%Z] => Ok paris_pairs_image
    | [4%Z] => Ok partial_pairs_image
    | _ => Raise (Exc (lit "cannot identify image file"))
    end;
|}.

Definition pairs_world : world := {|
  fs := [ (lit "paris.jpg", File [3%Z]); (lit "partial.jpg", File [4%Z]);
          (lit "output.txt", File [111%Z; 108%Z; 100%Z]) ];
  stdout := [];
  stderr := [];
|}.

(** ** Specification vocabulary for the coordinate normalizer *)

(** Two floats denote the same number: they are identical, or both are a
    zero (Python's [==] does not tell [0.0] from [-0.0]). *)
Definition same_number (x y : float) : Prop :=
  x = y \/ (is_zero x = true /\ is_zero y = true).

(** The formula of the specification, in binary64 arithmetic. *)
Definition dms_formula (d m s : float) : float :=
  (d + m / 60 + s / 3600)%float.

(** The hemisphere references that call for a negated result. *)
Definition south_or_west (ref : pyval) : Prop :=
  ref = VStr (lit "S") \/ ref = VStr (lit "W").

(** The elements of a Python sequence: [dms[0]], [dms[1]], ... *)
Definition seq_items (x : pyval) : option (list pyval) :=
  match x with
  | VTuple l | VList l => Some l
  | VStr s => Some (map (fun c => VStr [c]) s)
  | _ => None
  end.

(** A numerator/denominator pair, or a rational object, whose denominator is
    zero. *)
Definition zero_denominator (x : pyval) : bool :=
  match x with
  | VRational _ d => (d =? 0)%Z
  | VTuple [_; VInt d] => (d =? 0)%Z
  | VTuple [_; VFloat f] => is_zero f
  | VTuple [_; VBool b] => negb b
  | _ => false
  end.

(** The value a component counts for, given what [_rational_to_float]
    returned for it: zero when the conversion failed and when the component
    is a rational or a pair with a zero denominator, the converted number
    otherwise. *)
Definition taken_value (x : pyval) (r : option float) : float :=
  match r with
  | None => 0%float
  | Some f => if zero_denominator x then 0%float else f
  end.

(** [same_number] on the specification floats of [SpecFloat]. *)
Definition sf_same (a b : spec_float) : Prop :=
  a = b \/ (exists s t, a = S754_zero s /\ b = S754_zero t).

(** A computation that lets no non-[Exception] error out. *)
Definition only_exc {A} (m : result A) : Prop :=
  match m with
  | Raise (BaseExc _) => False
  | _ => True
  end.

(** A number on its own, where a sequence is expected: a value that has a
    truth value but no [len()]. *)
Definition scalar (x : pyval) : bool :=
  match x with
  | VBool _ | VInt _ | VFloat _ | VRational _ _ => true
  | _ => false
  end.

(** A triple of rational objects, and the same triple as
    (numerator, denominator) pairs. *)
Definition rational_triple (c : list (Z * Z)) : pyval :=
  VTuple (map (fun '(n, d) => VRational n d) c).

Definition pair_triple (c : list (Z * Z)) : pyval :=
  VTuple (map (fun '(n, d) => VTuple [VInt n; VInt d]) c).

(** * Properties *)

(** ** Binary64 facts *)

Lemma is_zero_spec (f : float) :
  is_zero f = true <-> exists s, Prim2SF f = S754_zero s.
Proof.
  unfold is_zero. rewrite eqb_spec.
  change (Prim2SF zero) with (S754_zero false).
  destruct (Prim2SF f) as [s | s | | s m e]; cbn.
  - split; eauto.
  - split; [destruct s; discriminate | intros [t H]; discriminate].
  - split; [discriminate | intros [t H]; discriminate].
  - split; [destruct s; discriminate | intros [t H]; discriminate].
Qed.

Lemma same_number_sf (x y : float) :
  same_number x y <-> sf_same (Prim2SF x) (Prim2SF y).
Proof.
  unfold same_number, sf_same. rewrite !is_zero_spec. split.
  - intros [-> | [[s Hs] [t Ht]]]; [now left | right; eauto].
  - intros [H | (s & t & Hs & Ht)]; [left; now apply Prim2SF_inj | right; eauto].
Qed.

Lemma same_number_add (a a' b b' : float) :
  same_number a a' -> same_number b b' -> same_number (a + b) (a' + b').
Proof.
  rewrite !same_number_sf, !add_spec. unfold sf_same, SF64add.
  intros [-> | (s & t & -> & ->)] [-> | (u & v & -> & ->)].
  - now left.
  - destruct (Prim2SF a') as [w | w | | w m e]; cbn;
      try (now left); destruct w, u, v; cbn; eauto.
  - destruct (Prim2SF b') as [w | w | | w m e]; cbn;
      try (now left); destruct w, s, t; cbn; eauto.
  - destruct s, t, u, v; cbn; eauto.
Qed.

Lemma same_number_div (a a' c : float) :
  same_number a a' -> same_number (a / c) (a' / c).
Proof.
  rewrite !same_number_sf, !div_spec. unfold sf_same, SF64div.
  intros [-> | (s & t & -> & ->)]; [now left |].
  destruct (Prim2SF c) as [w | w | | w m e]; cbn; eauto.
Qed.

Lemma same_number_opp (a a' : float) :
  same_number a a' -> same_number (- a) (- a').
Proof.
  rewrite !same_number_sf, !opp_spec. unfold sf_same.
  intros [-> | (s & t & -> & ->)]; [now left | cbn; eauto].
Qed.

Lemma is_zero_cases (f : float) :
  is_zero f = true -> f = zero \/ f = neg_zero.
Proof.
  rewrite is_zero_spec. intros [s H].
  rewrite <- (SF2Prim_Prim2SF f), H. destruct s; cbn; auto.
Qed.

Lemma or_zero_same (f : float) : same_number (or_zero (Some f)) f.
Proof.
  unfold or_zero. destruct (is_zero f) eqn:E; [right | now left].
  split; [reflexivity | exact E].
Qed.

Lemma or_zero_exact (f : float) : f <> neg_zero -> or_zero (Some f) = f.
Proof.
  intros Hn. unfold or_zero. destruct (is_zero f) eqn:E; [| reflexivity].
  destruct (is_zero_cases E) as [-> | ->]; [reflexivity | contradiction].
Qed.

(** ** The coordinate normalizer *)

Example str_of_int_samples :
  str_of_int 0 = lit "0" /\ str_of_int 34853 = lit "34853"
  /\ str_of_int (-7) = lit "-7".
Proof. repeat split. Qed.

Example float_of_int_samples :
  float_of_int 48 = Ok 48%float
  /\ float_of_int (2 ^ 53 + 1) = Ok 9007199254740992%float
  /\ float_of_int (- (2 ^ 53 + 3)) = Ok (-9007199254740996)%float
  /\ float_of_int (2 ^ 1024) = Raise (Exc (lit "int too large to convert to float")).
Proof. repeat split; vm_compute; reflexivity. Qed.

#[local] Set Warnings "-inexact-float".

(** The worked example of the specification: 48 deg 51' 29'' N and
    2 deg 17' 40'' E are 48.8581 and 2.2944 within 1e-3, and the southern
    latitude is -48.8581. *)
Example dms_paris :
  exists lat lon south,
    @_dms_to_decimal sample_runtime
      (VTuple [VInt 48; VInt 51; VInt 29]) (VStr (lit "N")) = Ok (Some lat)
    /\ @_dms_to_decimal sample_runtime
      (VTuple [VInt 2; VInt 17; VInt 40]) (VStr (lit "E")) = Ok (Some lon)
    /\ @_dms_to_decimal sample_runtime
      (VTuple [VInt 48; VInt 51; VInt 29]) (VStr (lit "S")) = Ok (Some south)
    /\ (abs (lat - 48.8581) <? 0.001)%float = true
    /\ (abs (lon - 2.2944) <? 0.001)%float = true
    /\ (abs (south + 48.8581) <? 0.001)%float = true.
Proof.
  do 3 eexists. repeat split; vm_compute; reflexivity.
Qed.

#[local] Set Warnings "inexact-float".

Lemma only_exc_bind {A B} (m : result A) (k : A -> result B) :
  only_exc m -> (forall a, only_exc (k a)) -> only_exc (bind m k).
Proof. destruct m as [a | e]; cbn; auto. Qed.

Lemma try_except_ok {A} (body : result A) (h : pystr -> A) :
  only_exc body -> exists r, try_except body (fun msg => Ok (h msg)) = Ok r.
Proof.
  destruct body as [a | [msg | msg]]; cbn; intros H; eauto; contradiction.
Qed.

Lemma float_of_int_only_exc (z : Z) : only_exc (float_of_int z).
Proof.
  unfold float_of_int. now destruct (binary_normalize prec emax z 0 false).
Qed.

Lemma pystr_eqb_eq (a b : pystr) : pystr_eqb a b = true <-> a = b.
Proof.
  unfold pystr_eqb. destruct (list_eq_dec N.eq_dec a b); split; congruence.
Qed.

Section NormalizerProperties.
Context {RT : Runtime}.

Lemma py_float_only_exc (x : pyval) : only_exc (py_float x).
Proof.
  destruct x; cbn; auto using float_of_int_only_exc.
  - now destruct (str_float s).
  - now destruct (rational_float num den).
Qed.

Lemma py_truediv_only_exc (a b : float) : only_exc (py_truediv a b).
Proof. unfold py_truediv. now destruct (is_zero b). Qed.

Lemma quotient_only_exc (num den : pyval) :
  only_exc (a <- py_float num ;; b <- py_float den ;;
            q <- py_truediv a b ;; Ok (Some q)).
Proof.
  apply only_exc_bind; [apply py_float_only_exc | intros a].
  apply only_exc_bind; [apply py_float_only_exc | intros b].
  apply only_exc_bind; [apply py_truediv_only_exc | now intros q].
Qed.

(** [_rational_to_float] never raises: it returns a float or [None]. *)
Lemma _rational_to_float_total (x : pyval) :
  exists r, _rational_to_float x = Ok r.
Proof.
  unfold _rational_to_float.
  apply try_except_ok with (h := fun _ => @None float).
  destruct (rational_attrs x) as [[num den] |].
  - apply quotient_only_exc.
  - destruct x as [| | | | | | [| num [| den [| ? ?]]] | |];
      try (apply only_exc_bind; [apply py_float_only_exc | now intros ?]).
    destruct (py_truthy den); [apply quotient_only_exc | exact I].
Qed.

Lemma py_eq_str_true (x : pyval) (s : pystr) :
  py_eq_str x s = true <-> x = VStr s.
Proof.
  destruct x; cbn; try (split; [discriminate | congruence]).
  rewrite pystr_eqb_eq. split; congruence.
Qed.

(** On a sequence of three elements the normalizer converts each element
    and evaluates the formula on the converted values. *)
Lemma _dms_to_decimal_three (dms ref x0 x1 x2 : pyval) :
  seq_items dms = Some [x0; x1; x2] ->
  _dms_to_decimal dms ref =
    (r0 <- _rational_to_float x0 ;;
     r1 <- _rational_to_float x1 ;;
     r2 <- _rational_to_float x2 ;;
     let dec := dms_formula (or_zero r0) (or_zero r1) (or_zero r2) in
     if py_eq_str ref (lit "S") || py_eq_str ref (lit "W")
     then Ok (Some (- dec)%float) else Ok (Some dec)).
Proof.
  intros H.
  destruct dms as [| | | | s | | l | l |]; try discriminate;
    cbn in H; injection H as H.
  - destruct s as [| c0 [| c1 [| c2 [| ? ?]]]]; try discriminate.
    cbn in H. injection H as <- <- <-. reflexivity.
  - subst l. reflexivity.
  - subst l. reflexivity.
Qed.

Lemma zero_component (x : pyval) :
  _rational_to_float x = Ok None \/ zero_denominator x = true ->
  exists r, _rational_to_float x = Ok r /\ or_zero r = 0%float.
Proof.
  intros [H | H]; [exists None; split; [exact H | reflexivity] |].
  destruct x as [| | | | | n d | [| num [| den [| ? ?]]] | |];
    try discriminate.
  - cbn in H. apply Z.eqb_eq in H. subst d.
    exists None. split; [| reflexivity].
    unfold _rational_to_float. cbn.
    generalize (float_of_int_only_exc n).
    destruct (float_of_int n) as [a | [msg | msg]]; cbn; tauto.
  - destruct den as [| b | z | f | | | | |]; try discriminate; cbn in H.
    + apply negb_true_iff in H. subst b. exists (Some 0%float).
      split; reflexivity.
    + apply Z.eqb_eq in H. subst z. exists (Some 0%float). split; reflexivity.
    + exists (Some 0%float). unfold _rational_to_float. cbn. rewrite H.
      split; reflexivity.
  - destruct den; discriminate.
Qed.

End NormalizerProperties.

(** C1: on a sequence of three components that all convert to numbers
    [d], [m], [s], [_dms_to_decimal] returns [d + m/60 + s/3600], negated
    exactly when the reference is ["S"] or ["W"] and with its sign unchanged
    for every other reference (["N"], ["E"]).  The returned float denotes the
    same number as the formula, and is the very same float unless a converted
    component is the negative zero (which [or 0.0] replaces by [0.0]). *)
Theorem dms_to_decimal_formula {RT : Runtime}
    (dms ref x0 x1 x2 : pyval) (d m s : float) :
  seq_items dms = Some [x0; x1; x2] ->
  _rational_to_float x0 = Ok (Some d) ->
  _rational_to_float x1 = Ok (Some m) ->
  _rational_to_float x2 = Ok (Some s) ->
  exists r,
    _dms_to_decimal dms ref = Ok (Some r) /\
    (south_or_west ref -> same_number r (- dms_formula d m s)) /\
    (~ south_or_west ref -> same_number r (dms_formula d m s)) /\
    (d <> neg_zero -> m <> neg_zero -> s <> neg_zero ->
     (south_or_west ref -> r = (- dms_formula d m s)%float) /\
     (~ south_or_west ref -> r = dms_formula d m s)).
Proof.
  intros Hseq H0 H1 H2.
  rewrite (@_dms_to_decimal_three _ dms ref _ _ _ Hseq), H0, H1, H2.
  cbn [bind].
  assert (Hsame : same_number
            (dms_formula (or_zero (Some d)) (or_zero (Some m)) (or_zero (Some s)))
            (dms_formula d m s)).
  { unfold dms_formula.
    repeat apply same_number_add; try apply same_number_div;
      apply or_zero_same. }
  assert (Hexact : d <> neg_zero -> m <> neg_zero -> s <> neg_zero ->
            dms_formula (or_zero (Some d)) (or_zero (Some m)) (or_zero (Some s))
            = dms_formula d m s).
  { intros Hd Hm Hs. now rewrite !or_zero_exact. }
  destruct (py_eq_str ref (lit "S") || py_eq_str ref (lit "W")) eqn:E.
  - assert (Hsw : south_or_west ref).
    { apply orb_true_iff in E. unfold south_or_west.
      rewrite <- !py_eq_str_true. exact E. }
    eexists. split; [reflexivity |].
    repeat split; intros; try contradiction.
    + now apply same_number_opp.
    + now rewrite Hexact.
  - assert (Hsw : ~ south_or_west ref).
    { apply orb_false_iff in E. destruct E as [ES EW].
      unfold south_or_west. rewrite <- !py_eq_str_true. intros [H | H]; congruence. }
    eexists. split; [reflexivity |].
    repeat split; intros; try contradiction; auto.
Qed.

Lemma dms_to_decimal_formula_witness :
  exists r,
    @_dms_to_decimal sample_runtime
      (VTuple [VInt 48; VRational 51 1; VTuple [VInt 29; VInt 1]])
      (VStr (lit "S")) = Ok (Some r) /\
    r = (- dms_formula 48 51 29)%float.
Proof.
  destruct (@dms_to_decimal_formula sample_runtime
              (VTuple [VInt 48; VRational 51 1; VTuple [VInt 29; VInt 1]])
              (VStr (lit "S")) (VInt 48) (VRational 51 1)
              (VTuple [VInt 29; VInt 1]) 48 51 29
              eq_refl eq_refl eq_refl eq_refl)
    as (r & Hr & _ & _ & Hexact).
  exists r. split; [exact Hr |].
  apply Hexact; try (intros H; vm_compute in H; discriminate).
  left. reflexivity.
Defined.

(** What a component contributes to the sum is the value it counts for. *)
Lemma or_zero_taken_value {RT : Runtime} (x : pyval) (r : option float) :
  _rational_to_float x = Ok r ->
  same_number (or_zero r) (taken_value x r) /\
  ((forall f, r = Some f -> f <> neg_zero) -> or_zero r = taken_value x r).
Proof.
  intros Hr. destruct r as [f |]; [| split; [now left | reflexivity]].
  unfold taken_value. destruct (zero_denominator x) eqn:Hz.
  - destruct (@zero_component _ x (or_intror Hz)) as (r' & Hr' & Hzero).
    rewrite Hr in Hr'. injection Hr' as <-. rewrite Hzero.
    split; [now left | reflexivity].
  - split; [apply or_zero_same | intros H; apply or_zero_exact; now apply H].
Qed.

(** C3: on a sequence of three components [_dms_to_decimal] does not raise:
    each component is converted without error, to a number or to [None], and
    the result is the formula evaluated on the values the components count
    for, where a component whose conversion failed, and a rational or a
    pair with a zero denominator, counts for zero, and every other component
    for its converted number; negated for the references ["S"] and ["W"].
    As for C1 the result denotes the same number as the formula, and is the
    very same float unless a converted component is the negative zero. *)
Theorem dms_failed_component_is_zero {RT : Runtime}
    (dms ref x0 x1 x2 : pyval) :
  seq_items dms = Some [x0; x1; x2] ->
  exists r0 r1 r2 v,
    _rational_to_float x0 = Ok r0 /\
    _rational_to_float x1 = Ok r1 /\
    _rational_to_float x2 = Ok r2 /\
    _dms_to_decimal dms ref = Ok (Some v) /\
    let expected :=
      dms_formula (taken_value x0 r0) (taken_value x1 r1) (taken_value x2 r2) in
    (south_or_west ref -> same_number v (- expected)) /\
    (~ south_or_west ref -> same_number v expected) /\
    ((forall f, In (Some f) [r0; r1; r2] -> f <> neg_zero) ->
     (south_or_west ref -> v = (- expected)%float) /\
     (~ south_or_west ref -> v = expected)).
Proof.
  intros Hseq.
  destruct (_rational_to_float_total x0) as [r0 H0].
  destruct (_rational_to_float_total x1) as [r1 H1].
  destruct (_rational_to_float_total x2) as [r2 H2].
  destruct (or_zero_taken_value x0 H0) as [S0 E0].
  destruct (or_zero_taken_value x1 H1) as [S1 E1].
  destruct (or_zero_taken_value x2 H2) as [S2 E2].
  rewrite (@_dms_to_decimal_three _ dms ref _ _ _ Hseq), H0, H1, H2.
  cbn [bind].
  assert (Hsame : same_number
            (dms_formula (or_zero r0) (or_zero r1) (or_zero r2))
            (dms_formula (taken_value x0 r0) (taken_value x1 r1)
               (taken_value x2 r2))).
  { unfold dms_formula.
    repeat apply same_number_add; try apply same_number_div; assumption. }
  assert (Hexact : (forall f, In (Some f) [r0; r1; r2] -> f <> neg_zero) ->
            dms_formula (or_zero r0) (or_zero r1) (or_zero r2)
            = dms_formula (taken_value x0 r0) (taken_value x1 r1)
                (taken_value x2 r2)).
  { intros Hnz. rewrite E0, E1, E2; [reflexivity | | |];
      intros f ->; apply Hnz; cbn; auto. }
  exists r0, r1, r2.
  destruct (py_eq_str ref (lit "S") || py_eq_str ref (lit "W")) eqn:E.
  - assert (Hsw : south_or_west ref).
    { apply orb_true_iff in E. unfold south_or_west.
      rewrite <- !py_eq_str_true. exact E. }
    eexists. repeat split; intros; try contradiction.
    + now apply same_number_opp.
    + now rewrite Hexact.
  - assert (Hsw : ~ south_or_west ref).
    { apply orb_false_iff in E. destruct E as [ES EW].
      unfold south_or_west. rewrite <- !py_eq_str_true.
      intros [H | H]; congruence. }
    eexists. repeat split; intros; try contradiction; auto.
Qed.

Lemma dms_failed_component_is_zero_witness :
  @_dms_to_decimal sample_runtime
    (VList [VStr (lit "x"); VInt 30; VRational 29 0]) (VStr (lit "S"))
  = Ok (Some (- (0 + 30 / 60 + 0 / 3600))%float).
Proof.
  destruct (@dms_failed_component_is_zero sample_runtime
              (VList [VStr (lit "x"); VInt 30; VRational 29 0])
              (VStr (lit "S")) (VStr (lit "x")) (VInt 30) (VRational 29 0)
              eq_refl)
    as (r0 & r1 & r2 & v & H0 & H1 & H2 & Hv & _ & _ & Hexact).
  vm_compute in H0, H1, H2.
  injection H0 as <-. injection H1 as <-. injection H2 as <-.
  rewrite Hv. f_equal. f_equal.
  apply Hexact.
  - intros f [H | [H | [H | []]]]; try discriminate H.
    injection H as <-. vm_compute. discriminate.
  - left. reflexivity.
Defined.

(** C4: on [None], on an empty sequence and on a sequence whose length is
    not 3, [_dms_to_decimal] returns [None] and does not raise. *)
Theorem dms_wrong_length_is_absent {RT : Runtime} (dms ref : pyval) :
  dms = VNone \/
  (exists xs, seq_items dms = Some xs /\ List.length xs <> 3%nat) ->
  _dms_to_decimal dms ref = Ok None.
Proof.
  intros [-> | (xs & Hseq & Hlen)]; [reflexivity |].
  unfold _dms_to_decimal.
  destruct dms as [| | | | s | | l | l |]; try discriminate;
    cbn in Hseq; injection Hseq as <-; cbn [py_truthy py_len bind].
  - rewrite length_map in Hlen.
    destruct (Nat.eqb (List.length s) 0); cbn; [reflexivity |].
    apply Nat.eqb_neq in Hlen. now rewrite Hlen.
  - destruct (Nat.eqb (List.length l) 0); cbn; [reflexivity |].
    apply Nat.eqb_neq in Hlen. now rewrite Hlen.
  - destruct (Nat.eqb (List.length l) 0); cbn; [reflexivity |].
    apply Nat.eqb_neq in Hlen. now rewrite Hlen.
Qed.

Lemma dms_wrong_length_is_absent_witness :
  @_dms_to_decimal sample_runtime (VTuple [VInt 48; VInt 51]) (VStr (lit "N"))
  = Ok None.
Proof.
  apply dms_wrong_length_is_absent. right.
  exists [VInt 48; VInt 51]. split; [reflexivity | cbn; lia].
Defined.

(** ** The metadata extractor *)

Lemma is_not_None_true {A} (v : option A) :
  is_not_None v = true <-> exists a, v = Some a.
Proof.
  destruct v; cbn; split; eauto; try discriminate.
  intros [a H]. discriminate.
Qed.

Section ExtractorProperties.
Context {RT : Runtime} {PIL : Pillow}.

(** A value the dictionary does not hold, or holds as [None], stops the
    guard [raw and ref]. *)
Lemma guard_absent (raw_ ref_ : pyval) :
  raw_ = VNone \/ ref_ = VNone -> py_truthy raw_ && py_truthy ref_ = false.
Proof.
  intros [-> | ->]; [reflexivity | apply andb_false_r].
Qed.

Lemma parse_gps_partial (gps_info : list (pykey * pyval)) (g : gps_dict) :
  parse_gps gps_info = Ok g ->
  exists r, g = Some r /\
    (dict_get (KStr (lit "GPSLatitude")) (gps_names gps_info) = VNone \/
     dict_get (KStr (lit "GPSLatitudeRef")) (gps_names gps_info) = VNone ->
     latitude_decimal r = None) /\
    (dict_get (KStr (lit "GPSLongitude")) (gps_names gps_info) = VNone \/
     dict_get (KStr (lit "GPSLongitudeRef")) (gps_names gps_info) = VNone ->
     longitude_decimal r = None).
Proof.
  unfold parse_gps.
  set (named := gps_names gps_info).
  set (lat_raw := dict_get (KStr (lit "GPSLatitude")) named).
  set (lat_ref := dict_get (KStr (lit "GPSLatitudeRef")) named).
  set (lon_raw := dict_get (KStr (lit "GPSLongitude")) named).
  set (lon_ref := dict_get (KStr (lit "GPSLongitudeRef")) named).
  destruct (py_truthy lat_raw && py_truthy lat_ref) eqn:Elat;
    destruct (py_truthy lon_raw && py_truthy lon_ref) eqn:Elon.
  - destruct (_dms_to_decimal lat_raw lat_ref) as [lat | e]; [| discriminate].
    destruct (_dms_to_decimal lon_raw lon_ref) as [lon | e]; [| discriminate].
    cbn. intros [= <-]. eexists. split; [reflexivity |]. cbn.
    split; intros H; apply guard_absent in H; congruence.
  - destruct (_dms_to_decimal lat_raw lat_ref) as [lat | e]; [| discriminate].
    cbn. intros [= <-]. eexists. split; [reflexivity |]. cbn.
    split; intros H; [apply guard_absent in H; congruence | reflexivity].
  - destruct (_dms_to_decimal lon_raw lon_ref) as [lon | e]; [| discriminate].
    cbn. intros [= <-]. eexists. split; [reflexivity |]. cbn.
    split; intros H; [reflexivity | apply guard_absent in H; congruence].
  - cbn. intros [= <-]. eexists. split; [reflexivity |]. cbn.
    split; reflexivity.
Qed.

End ExtractorProperties.

(** C5: when the GPS block of the image lacks the raw triple or the
    reference letter of an axis (the named GPS mapping has no such entry, or
    holds [None] there), the extractor leaves the decimal field of that axis
    absent in the GPS record it returns. *)
Theorem partial_gps_leaves_axis_absent {RT : Runtime} {PIL : Pillow}
    (img : Image) (gps_info : list (pykey * pyval)) (d : exif_data) :
  dict_get (KStr (lit "GPSInfo")) (exif_names (img_getexif img)) = VDict gps_info ->
  extract_exif img = Ok d ->
  exists g, gps d = Some g /\
    (dict_get (KStr (lit "GPSLatitude")) (gps_names gps_info) = VNone \/
     dict_get (KStr (lit "GPSLatitudeRef")) (gps_names gps_info) = VNone ->
     latitude_decimal g = None) /\
    (dict_get (KStr (lit "GPSLongitude")) (gps_names gps_info) = VNone \/
     dict_get (KStr (lit "GPSLongitudeRef")) (gps_names gps_info) = VNone ->
     longitude_decimal g = None).
Proof.
  intros Hinfo. unfold extract_exif.
  destruct (Nat.eqb (List.length (img_getexif img)) 0) eqn:E.
  - apply Nat.eqb_eq in E.
    destruct (img_getexif img); [discriminate Hinfo | discriminate E].
  - rewrite Hinfo.
    destruct (parse_gps gps_info) as [g | e] eqn:Hg; [| discriminate].
    cbn. intros [= <-]. cbn. now apply parse_gps_partial.
Qed.

Lemma partial_gps_leaves_axis_absent_witness :
  exists g,
    gps_get_latitude (Some g) = None /\
    @extract_exif sample_runtime sample_pillow partial_gps_image
    = Ok {| exif := @exif_names sample_pillow (img_getexif partial_gps_image);
            gps := Some g |}.
Proof.
  destruct (@partial_gps_leaves_axis_absent sample_runtime sample_pillow
              partial_gps_image
              [ (KInt 2, VTuple [VRational 48 1; VRational 51 1; VRational 29 1]) ]
              _ eq_refl eq_refl) as (g & Hg & Hlat & _).
  exists g. split.
  - apply Hlat. right. reflexivity.
  - cbn in Hg. injection Hg as <-. reflexivity.
Defined.

(** C2: in the result of every analysis, [summary.has_gps] is true if and
    only if the GPS record is there and both its [latitude_decimal] and its
    [longitude_decimal] hold a number. *)
Theorem has_gps_iff_both_decimals
    {RT : Runtime} {PIL : Pillow} {OCR : OcrDeps} {OS : Platform}
    (w : world) (p : pystr) (do_ocr : bool) (data : info) :
  analyze_image w p do_ocr = Ok data ->
  (has_gps (i_summary data) = true <->
   exists g lat lon,
     i_gps data = Some g /\
     latitude_decimal g = Some lat /\ longitude_decimal g = Some lon).
Proof.
  unfold analyze_image.
  destruct (Image_open w p) as [img | e]; [| discriminate]. cbn [bind].
  destruct (extract_exif img) as [d | e]; [| discriminate]. cbn [bind].
  destruct (if do_ocr then _ else _) as [o | e]; [| discriminate].
  cbn [bind]. intros [= <-]. cbn.
  rewrite andb_true_iff, !is_not_None_true.
  destruct (gps d) as [g |]; cbn.
  - split.
    + intros [[lat Hlat] [lon Hlon]]. now exists g, lat, lon.
    + intros (g' & lat & lon & [= <-] & Hlat & Hlon). eauto.
  - split.
    + intros [[lat Hlat] _]. discriminate.
    + intros (g' & lat & lon & Hg & _). discriminate.
Qed.

Lemma has_gps_iff_both_decimals_witness :
  exists data,
    @analyze_image sample_runtime sample_pillow no_ocr_deps sample_platform
      sample_world (lit "paris.jpg") false = Ok data /\
    has_gps (i_summary data) = true /\
    exists g lat lon,
      i_gps data = Some g /\
      latitude_decimal g = Some lat /\ longitude_decimal g = Some lon.
Proof.
  eexists. split; [vm_compute; reflexivity |].
  split; [reflexivity |].
  apply (@has_gps_iff_both_decimals sample_runtime sample_pillow no_ocr_deps
           sample_platform sample_world (lit "paris.jpg") false _ eq_refl).
  reflexivity.
Defined.

(** ** Stripping *)

Lemma lstrip_all_space (s : pystr) :
  forallb isspace s = true -> lstrip s = [].
Proof.
  induction s as [| c s IH]; cbn; [reflexivity |].
  rewrite andb_true_iff. intros [-> Hs]. now apply IH.
Qed.

Lemma strip_all_space (s : pystr) :
  forallb isspace s = true -> strip s = [].
Proof.
  intros H. unfold strip, rstrip. now rewrite (lstrip_all_space _ H).
Qed.

Lemma lstrip_head (s : pystr) (c : N) (t : pystr) :
  lstrip s = c :: t -> isspace c = false.
Proof.
  induction s as [| a s IH]; cbn; [discriminate |].
  destruct (isspace a) eqn:E; [exact IH | congruence].
Qed.

(** What [strip] returns is empty or ends with a character that is not a
    blank. *)
Lemma strip_not_blank (s : pystr) :
  strip s <> [] -> forallb isspace (strip s) = false.
Proof.
  unfold strip, rstrip.
  destruct (lstrip (rev (lstrip s))) as [| c t] eqn:E; [now intros [] |].
  intros _. cbn [rev]. rewrite forallb_app. cbn.
  rewrite (lstrip_head _ E). apply andb_false_r.
Qed.

Lemma length_zero_nil {A} (l : list A) :
  Nat.eqb (List.length l) 0 = true <-> l = [].
Proof. destruct l; cbn; split; congruence. Qed.

(** ** The OCR adapter *)

(** C6: without the OCR engine, [try_ocr] returns a result whose [text] and
    [language] are [None] and whose [note] is the non-empty string
    "pytesseract not installed; skip OCR."; an analysis that asks for OCR
    then succeeds whenever the one that does not ask for it does, with this
    result under ["ocr"]. *)
Theorem ocr_engine_unavailable
    {RT : Runtime} {PIL : Pillow} {OCR : OcrDeps} {OS : Platform} :
  pytesseract = None ->
  let skipped :=
    {| text := None; language := None;
       note := Some (lit "pytesseract not installed; skip OCR.") |} in
  (forall img, try_ocr img = Ok skipped) /\
  note skipped <> None /\ note skipped <> Some [] /\
  (forall w p data,
     analyze_image w p false = Ok data ->
     analyze_image w p true
     = Ok {| i_file := i_file data; i_exif := i_exif data;
             i_gps := i_gps data; i_summary := i_summary data;
             i_ocr := Some skipped |}).
Proof.
  intros Hno skipped.
  assert (Hocr : forall img, try_ocr img = Ok skipped).
  { intros img. unfold try_ocr. now rewrite Hno. }
  repeat split; try discriminate; [exact Hocr |].
  intros w p data. unfold analyze_image.
  destruct (Image_open w p) as [img | e]; [| discriminate]. cbn [bind].
  destruct (extract_exif img) as [d | e]; [| discriminate]. cbn [bind].
  rewrite Hocr. cbn [bind]. now intros [= <-].
Qed.

Lemma ocr_engine_unavailable_witness :
  @analyze_image sample_runtime sample_pillow no_ocr_deps sample_platform
    sample_world (lit "paris.jpg") true
  = match @analyze_image sample_runtime sample_pillow no_ocr_deps
            sample_platform sample_world (lit "paris.jpg") false with
    | Ok data =>
        Ok {| i_file := i_file data; i_exif := i_exif data;
              i_gps := i_gps data; i_summary := i_summary data;
              i_ocr := Some {| text := None; language := None;
                               note := Some (lit "pytesseract not installed; skip OCR.") |} |}
    | Raise e => Raise e
    end.
Proof.
  destruct (@analyze_image sample_runtime sample_pillow no_ocr_deps
              sample_platform sample_world (lit "paris.jpg") false)
    as [data | e] eqn:E; [| vm_compute in E; discriminate E].
  exact (proj2 (proj2 (proj2
           (@ocr_engine_unavailable sample_runtime sample_pillow no_ocr_deps
              sample_platform eq_refl))) sample_world (lit "paris.jpg") data E).
Defined.

(** C8: when the engine extracts only blanks (or nothing), [try_ocr]
    returns [text = None]; and whatever [try_ocr] returns, its [text] is
    never an empty string nor a string of blanks. *)
Theorem whitespace_text_is_absent {OCR : OcrDeps} (image : Image) :
  (forall image_to_string img text0,
     pytesseract = Some image_to_string ->
     exif_transpose image = Ok img ->
     image_to_string img = Ok text0 ->
     forallb isspace text0 = true ->
     try_ocr image = Ok {| text := None; language := None; note := None |}) /\
  (forall r t,
     try_ocr image = Ok r -> text r = Some t ->
     t <> [] /\ forallb isspace t = false).
Proof.
  split.
  - intros image_to_string img text0 Hengine Htr Hread Hblank.
    unfold try_ocr. rewrite Hengine, Htr. cbn [bind]. rewrite Hread.
    cbn [bind]. rewrite (strip_all_space _ Hblank). cbn.
    now destruct detect.
  - intros r t. unfold try_ocr.
    destruct pytesseract as [image_to_string |]; [| intros [= <-]; discriminate].
    destruct (exif_transpose image) as [img | [msg | msg]]; cbn;
      [| intros [= <-]; discriminate | discriminate].
    destruct (image_to_string img) as [text0 | [msg | msg]]; cbn;
      [| intros [= <-]; discriminate | discriminate].
    destruct (Nat.eqb (List.length (strip text0)) 0) eqn:E; cbn.
    + destruct detect; cbn; intros [= <-]; discriminate.
    + assert (Hne : strip text0 <> []).
      { intros H. apply length_zero_nil in H. congruence. }
      assert (Hgoal : forall t', Some (strip text0) = Some t' ->
                t' <> [] /\ forallb isspace t' = false).
      { intros t' [= <-]. split; [exact Hne | now apply strip_not_blank]. }
      destruct detect as [detect_ |]; cbn.
      * destruct (detect_ (strip text0)) as [lang | [msg | msg]]; cbn;
          try discriminate; intros [= <-]; cbn; apply Hgoal.
      * intros [= <-]; cbn; apply Hgoal.
Qed.

Lemma whitespace_text_is_absent_witness :
  @try_ocr blank_ocr_deps paris_image
  = Ok {| text := None; language := None; note := None |}.
Proof.
  exact (proj1 (@whitespace_text_is_absent blank_ocr_deps paris_image)
           (fun _ => Ok (lit "  ")) paris_image (lit "  ")
           eq_refl eq_refl eq_refl eq_refl).
Defined.

(** C10: when the engine extracts a non-empty text, [detect] is available
    and its call raises an [Exception], [try_ocr] returns the extracted
    text with [language = None] and with [note = None]: the failure of the
    detection leaves no diagnostic. *)
Theorem detection_failure_leaves_no_note {OCR : OcrDeps}
    (image img : Image) (image_to_string : Image -> result pystr)
    (detect_ : pystr -> result pystr) (text0 msg : pystr) :
  pytesseract = Some image_to_string ->
  detect = Some detect_ ->
  exif_transpose image = Ok img ->
  image_to_string img = Ok text0 ->
  strip text0 <> [] ->
  detect_ (strip text0) = Raise (Exc msg) ->
  try_ocr image
  = Ok {| text := Some (strip text0); language := None; note := None |}.
Proof.
  intros Hengine Hdetect Htr Hread Hne Hfail.
  unfold try_ocr. rewrite Hengine, Htr. cbn [bind]. rewrite Hread.
  cbn [bind]. rewrite Hdetect.
  destruct (Nat.eqb (List.length (strip text0)) 0) eqn:E.
  - apply length_zero_nil in E. contradiction.
  - cbn. rewrite Hfail. reflexivity.
Qed.

Lemma detection_failure_leaves_no_note_witness :
  @try_ocr failing_detect_deps paris_image
  = Ok {| text := Some (lit "42"); language := None; note := None |}.
Proof.
  apply (@detection_failure_leaves_no_note failing_detect_deps
           paris_image paris_image (fun _ => Ok (lit " 42 "))
           (fun _ => Raise (Exc (lit "No features in text.")))
           (lit " 42 ") (lit "No features in text."));
    try reflexivity.
  vm_compute. discriminate.
Defined.

(** ** The report *)

(** C9, as the code has it: the thirteenth line of the report, the one after
    "- GPS present", is the line of decimal coordinates exactly when the GPS
    record is not empty (the EXIF block had a GPSInfo mapping); an absent
    coordinate is then printed as [None].  With an empty GPS record that
    place holds the blank line opening the OCR section, or nothing.  Hence
    the line is there whenever a decimal coordinate is present. *)
Theorem gps_line_follows_gps_record
    {RT : Runtime} (data : info) :
  (forall g, i_gps data = Some g ->
     nth_error (report_lines data) 12 = Some (gps_decimal_line g)) /\
  (i_gps data = None ->
     nth_error (report_lines data) 12
     = match i_ocr data with Some _ => Some [] | None => None end) /\
  (is_not_None (gps_get_latitude (i_gps data))
   || is_not_None (gps_get_longitude (i_gps data)) = true ->
   exists g, i_gps data = Some g /\ In (gps_decimal_line g) (report_lines data)).
Proof.
  assert (Hsome : forall g, i_gps data = Some g ->
            nth_error (report_lines data) 12 = Some (gps_decimal_line g)).
  { intros g Hg. unfold report_lines. rewrite Hg. reflexivity. }
  split; [exact Hsome | split].
  - intros Hg. unfold report_lines. rewrite Hg.
    now destruct (i_ocr data).
  - intros H. destruct (i_gps data) as [g |] eqn:Hg; [| discriminate H].
    exists g. split; [reflexivity |].
    apply nth_error_In with (n := 12%nat). exact (Hsome g eq_refl).
Qed.

Lemma gps_line_follows_gps_record_witness :
  exists data g,
    @analyze_image sample_runtime pairs_pillow no_ocr_deps sample_platform
      pairs_world (lit "paris.jpg") false = Ok data /\
    info_serialisable data = true /\
    i_gps data = Some g /\
    nth_error (@report_lines sample_runtime data) 12
    = Some (@gps_decimal_line sample_runtime g).
Proof.
  eexists. eexists. split; [vm_compute; reflexivity |].
  split; [reflexivity |]. split; [reflexivity |].
  apply (proj1 (@gps_line_follows_gps_record sample_runtime _)). reflexivity.
Defined.

(** The claim C9 fails: for a photograph whose GPS block has a latitude
    triple and nothing else (every value one that [json.dumps] accepts),
    both decimal coordinates are absent, the run ends with status 0 after
    printing the JSON document, and the report written to the output path
    has the line "- GPS (decimal): None, None". *)
Lemma gps_line_without_decimals :
  exists data w',
    @analyze_image sample_runtime pairs_pillow no_ocr_deps sample_platform
      pairs_world (lit "partial.jpg") false = Ok data /\
    @json_dumps sample_json data = Ok (lit "{}") /\
    gps_get_latitude (i_gps data) = None /\
    gps_get_longitude (i_gps data) = None /\
    In (lit "- GPS (decimal): None, None") (@report_lines sample_runtime data) /\
    @main sample_runtime pairs_pillow no_ocr_deps sample_platform sample_json
      {| image := lit "partial.jpg"; ocr := false; out := lit "output.txt" |}
      pairs_world = (Exit 0, w') /\
    stdout w' = [lit "{}"] /\
    fs_lookup (lit "output.txt") (fs w')
    = Some (File (map Z.of_N
                    (join [10%N] (@report_lines sample_runtime data)))).
Proof.
  eexists. eexists. split; [vm_compute; reflexivity |].
  split; [reflexivity |]. split; [reflexivity |]. split; [reflexivity |].
  split; [vm_compute; tauto |].
  split; [vm_compute; reflexivity |].
  split; vm_compute; reflexivity.
Qed.

(** ** The command line *)

(** C7: when the image path does not exist, [main] ends with exit status 1,
    its only effect being the line "Error: file not found: <path>" on
    standard error: no file is created or modified, in particular not the
    one at the output path. *)
Theorem missing_image_exits_1
    {RT : Runtime} {PIL : Pillow} {OCR : OcrDeps} {OS : Platform} {JS : Json}
    (a : args) (w : world) :
  os_path_exists w (image a) = false ->
  main a w
  = (Exit 1,
     {| fs := fs w; stdout := stdout w;
        stderr := stderr w ++ [lit "Error: file not found: " ++ image a] |}) /\
  fs_lookup (out a) (fs (snd (main a w))) = fs_lookup (out a) (fs w).
Proof.
  intros H. unfold main. rewrite H. cbn. split; reflexivity.
Qed.

Lemma missing_image_exits_1_witness :
  @main sample_runtime sample_pillow no_ocr_deps sample_platform sample_json
    {| image := lit "missing.jpg"; ocr := true; out := lit "output.txt" |}
    sample_world
  = (Exit 1,
     {| fs := fs sample_world; stdout := [];
        stderr := [lit "Error: file not found: missing.jpg"] |}).
Proof.
  exact (proj1 (@missing_image_exits_1 sample_runtime sample_pillow no_ocr_deps
                  sample_platform sample_json
                  {| image := lit "missing.jpg"; ocr := true;
                     out := lit "output.txt" |}
                  sample_world eq_refl)).
Defined.

(** * Further properties of the code *)

Unset Implicit Arguments.

(** ** The coordinate normalizer, on every input *)

Section NormalizerShape.
Context {RT : Runtime}.

(** A sequence of three elements always yields a number. *)
Lemma _dms_to_decimal_three_some (dms ref x0 x1 x2 : pyval) :
  seq_items dms = Some [x0; x1; x2] ->
  exists r, _dms_to_decimal dms ref = Ok (Some r).
Proof.
  intros Hseq. rewrite (@_dms_to_decimal_three _ dms ref _ _ _ Hseq).
  destruct (_rational_to_float_total x0) as [r0 ->].
  destruct (_rational_to_float_total x1) as [r1 ->].
  destruct (_rational_to_float_total x2) as [r2 ->]. cbn [bind].
  destruct (py_eq_str ref (lit "S") || py_eq_str ref (lit "W")); eauto.
Qed.

(** The reference only decides the sign: whether a value is returned, and
    its magnitude, depend on [dms] alone. *)
Lemma _dms_to_decimal_shape (dms : pyval) :
  (forall ref, _dms_to_decimal dms ref = Ok None) \/
  (exists e, forall ref, _dms_to_decimal dms ref = Raise e) \/
  (exists dec, forall ref,
     _dms_to_decimal dms ref
     = if py_eq_str ref (lit "S") || py_eq_str ref (lit "W")
       then Ok (Some (- dec)%float) else Ok (Some dec)).
Proof.
  unfold _dms_to_decimal.
  destruct (negb (py_truthy dms)); [now left |].
  destruct (py_len dms) as [n | e]; cbn [bind]; [| right; left; eauto].
  destruct (negb (Nat.eqb n 3)); [now left |].
  destruct (py_getitem dms 0) as [x0 | e]; cbn [bind]; [| right; left; eauto].
  destruct (_rational_to_float x0) as [r0 | e]; cbn [bind];
    [| right; left; eauto].
  destruct (py_getitem dms 1) as [x1 | e]; cbn [bind]; [| right; left; eauto].
  destruct (_rational_to_float x1) as [r1 | e]; cbn [bind];
    [| right; left; eauto].
  destruct (py_getitem dms 2) as [x2 | e]; cbn [bind]; [| right; left; eauto].
  destruct (_rational_to_float x2) as [r2 | e]; cbn [bind];
    [| right; left; eauto].
  right; right. eexists. intros ref. reflexivity.
Qed.

Lemma south_or_west_dec (ref : pyval) :
  py_eq_str ref (lit "S") || py_eq_str ref (lit "W") = true <-> south_or_west ref.
Proof.
  unfold south_or_west. now rewrite orb_true_iff, !py_eq_str_true.
Qed.

(** A rational object and the pair of its numerator and denominator convert
    alike, but for a zero denominator, where the object gives [None] and the
    pair [0.0]: the same contribution to the formula. *)
Lemma rational_object_vs_pair (n d : Z) :
  exists r1 r2,
    _rational_to_float (VRational n d) = Ok r1 /\
    _rational_to_float (VTuple [VInt n; VInt d]) = Ok r2 /\
    or_zero r1 = or_zero r2.
Proof.
  destruct (Z.eqb_spec d 0) as [-> | Hd].
  - destruct (@zero_component _ (VRational n 0) (or_intror eq_refl))
      as (r1 & H1 & Hz1).
    exists r1, (Some 0%float). repeat split; [exact H1 | now rewrite Hz1].
  - destruct (_rational_to_float_total (VRational n d)) as [r1 H1].
    exists r1, r1. repeat split; [exact H1 |].
    rewrite <- H1. unfold _rational_to_float. cbn.
    apply Z.eqb_neq in Hd. now rewrite Hd.
Qed.

End NormalizerShape.

(** X1: every sequence of exactly three elements, whatever the elements are,
    makes [_dms_to_decimal] return a number: it neither raises nor returns
    [None]. *)
Theorem dms_three_elements_give_number {RT : Runtime}
    (dms ref : pyval) (xs : list pyval) :
  seq_items dms = Some xs ->
  List.length xs = 3%nat ->
  exists r, _dms_to_decimal dms ref = Ok (Some r).
Proof.
  intros Hseq Hlen.
  destruct xs as [| x0 [| x1 [| x2 [| ? ?]]]]; try discriminate.
  now apply _dms_to_decimal_three_some with x0 x1 x2.
Qed.

Lemma dms_three_elements_give_number_witness :
  exists r,
    @_dms_to_decimal sample_runtime
      (VList [VNone; VStr (lit "x"); VTuple []]) VNone = Ok (Some r).
Proof.
  apply (@dms_three_elements_give_number sample_runtime _ _
           [VNone; VStr (lit "x"); VTuple []]); reflexivity.
Defined.

(** X2: given a bare number instead of a sequence, [_dms_to_decimal] returns
    [None] when the number is falsy (zero, [False]) and raises an [Exception]
    (the TypeError of [len]) when it is truthy. *)
Theorem dms_scalar_input {RT : Runtime} (dms ref : pyval) :
  scalar dms = true ->
  (py_truthy dms = false -> _dms_to_decimal dms ref = Ok None) /\
  (py_truthy dms = true -> exists msg, _dms_to_decimal dms ref = Raise (Exc msg)).
Proof.
  intros Hs. unfold _dms_to_decimal. split; intros ->; cbn [negb].
  - reflexivity.
  - destruct dms; try discriminate; cbn; eauto.
Qed.

Lemma dms_scalar_input_witness :
  (exists msg, @_dms_to_decimal sample_runtime (VInt 48) (VStr (lit "N"))
               = Raise (Exc msg)) /\
  @_dms_to_decimal sample_runtime (VInt 0) (VStr (lit "N")) = Ok None.
Proof.
  split.
  - apply (@dms_scalar_input sample_runtime (VInt 48) (VStr (lit "N")) eq_refl).
    reflexivity.
  - apply (@dms_scalar_input sample_runtime (VInt 0) (VStr (lit "N")) eq_refl).
    reflexivity.
Defined.

(** X3: the reference letter only decides the sign.  If [dms] gives [r] for
    the reference ["N"], it gives [-r] for ["S"] and for ["W"], and [r] for
    every other reference, lower-case letters and non-strings included. *)
Theorem dms_reference_decides_sign_only {RT : Runtime} (dms : pyval) (r : float) :
  _dms_to_decimal dms (VStr (lit "N")) = Ok (Some r) ->
  _dms_to_decimal dms (VStr (lit "S")) = Ok (Some (- r)%float) /\
  _dms_to_decimal dms (VStr (lit "W")) = Ok (Some (- r)%float) /\
  (forall ref, ~ south_or_west ref -> _dms_to_decimal dms ref = Ok (Some r)).
Proof.
  intros HN.
  destruct (_dms_to_decimal_shape dms) as [H | [[e H] | [dec H]]];
    try (rewrite H in HN; discriminate).
  rewrite H in HN. cbn in HN. injection HN as <-.
  repeat split.
  - now rewrite H.
  - now rewrite H.
  - intros ref Hsw. rewrite H.
    destruct (py_eq_str ref (lit "S") || py_eq_str ref (lit "W")) eqn:E;
      [| reflexivity].
    apply south_or_west_dec in E. contradiction.
Qed.

Lemma dms_reference_decides_sign_only_witness :
  @_dms_to_decimal sample_runtime (VTuple [VInt 48; VInt 51; VInt 29])
    (VStr (lit "s"))
  = Ok (Some (48 + 51 / 60 + 29 / 3600)%float).
Proof.
  apply (@dms_reference_decides_sign_only sample_runtime
           (VTuple [VInt 48; VInt 51; VInt 29]) _ eq_refl).
  intros [H | H]; vm_compute in H; discriminate H.
Defined.

(** X4: coordinates given as rational objects and the same coordinates
    written as (numerator, denominator) pairs give the same result, zero
    denominators and wrong lengths included. *)
Theorem dms_rationals_and_pairs_agree {RT : Runtime}
    (c : list (Z * Z)) (ref : pyval) :
  _dms_to_decimal (rational_triple c) ref = _dms_to_decimal (pair_triple c) ref.
Proof.
  unfold rational_triple, pair_triple.
  destruct c as [| [n0 d0] [| [n1 d1] [| [n2 d2] [| ? ?]]]];
    try reflexivity.
  cbn [map].
  rewrite (@_dms_to_decimal_three _
             (VTuple [VRational n0 d0; VRational n1 d1; VRational n2 d2])
             ref _ _ _ eq_refl).
  rewrite (@_dms_to_decimal_three _
             (VTuple [VTuple [VInt n0; VInt d0]; VTuple [VInt n1; VInt d1];
                      VTuple [VInt n2; VInt d2]]) ref _ _ _ eq_refl).
  destruct (rational_object_vs_pair n0 d0) as (a0 & b0 & -> & -> & E0).
  destruct (rational_object_vs_pair n1 d1) as (a1 & b1 & -> & -> & E1).
  destruct (rational_object_vs_pair n2 d2) as (a2 & b2 & -> & -> & E2).
  cbn [bind]. now rewrite E0, E1, E2.
Qed.

(** ** Dictionaries: assignment and lookup *)

Lemma pykey_eqb_eq (a b : pykey) : pykey_eqb a b = true <-> a = b.
Proof.
  destruct a as [x | s], b as [y | t]; cbn;
    try (split; [discriminate | congruence]).
  - rewrite Z.eqb_eq. split; congruence.
  - rewrite pystr_eqb_eq. split; congruence.
Qed.

Lemma pykey_eqb_refl (a : pykey) : pykey_eqb a a = true.
Proof. now apply pykey_eqb_eq. Qed.

Lemma pykey_eqb_neq (a b : pykey) : a <> b -> pykey_eqb a b = false.
Proof.
  intros H. destruct (pykey_eqb a b) eqn:E; [| reflexivity].
  apply pykey_eqb_eq in E. contradiction.
Qed.

Lemma assoc_get_dict_set_same {V} (k : pykey) (v : V) (d : list (pykey * V)) :
  assoc_get k (dict_set k v d) = Some v.
Proof.
  induction d as [| [k' v'] d IH]; cbn.
  - now rewrite pykey_eqb_refl.
  - destruct (pykey_eqb k k') eqn:E; cbn; rewrite E; [reflexivity | exact IH].
Qed.

Lemma assoc_get_dict_set_other {V} (k k' : pykey) (v : V)
    (d : list (pykey * V)) :
  k <> k' -> assoc_get k (dict_set k' v d) = assoc_get k d.
Proof.
  intros Hk. induction d as [| [k0 v0] d IH]; cbn.
  - now rewrite pykey_eqb_neq.
  - destruct (pykey_eqb k' k0) eqn:E; cbn.
    + apply pykey_eqb_eq in E. subst k0. now rewrite pykey_eqb_neq.
    + destruct (pykey_eqb k k0); [reflexivity | exact IH].
Qed.

Lemma assoc_get_map {V W} (f : V -> W) (k : pykey) (d : list (pykey * V)) :
  assoc_get k (map (fun '(k', v) => (k', f v)) d)
  = option_map f (assoc_get k d).
Proof.
  induction d as [| [k' v] d IH]; cbn; [reflexivity |].
  destruct (pykey_eqb k k'); [reflexivity | exact IH].
Qed.

(** The naming loops: entries are filed under the name of their key, a later
    entry replacing an earlier one of the same name. *)
Section Naming.
Context {K : Type} (f : K -> pystr).

Lemma naming_get_other (n : pystr) (items : list (K * pyval))
    (acc : list (pykey * pyval)) :
  (forall k v, In (k, v) items -> f k <> n) ->
  assoc_get (KStr n)
    (fold_left (fun d '(k, v) => dict_set (KStr (f k)) v d) items acc)
  = assoc_get (KStr n) acc.
Proof.
  revert acc. induction items as [| [k v] items IH]; intros acc H; cbn;
    [reflexivity |].
  rewrite IH by (intros k' v' Hin; apply (H k' v'); now right).
  apply assoc_get_dict_set_other. intros [= E].
  apply (H k v); [now left | now symmetry].
Qed.

Lemma naming_get_last (pre post : list (K * pyval)) (k : K) (v : pyval)
    (acc : list (pykey * pyval)) :
  (forall k' v', In (k', v') post -> f k' <> f k) ->
  assoc_get (KStr (f k))
    (fold_left (fun d '(k, v) => dict_set (KStr (f k)) v d)
       (pre ++ (k, v) :: post) acc)
  = Some v.
Proof.
  intros H. rewrite fold_left_app. cbn [fold_left].
  rewrite naming_get_other by exact H.
  apply assoc_get_dict_set_same.
Qed.

End Naming.

(** ** The metadata extractor, beyond partial GPS data *)

(** X5: every EXIF tag is kept in [exif_named] under its name (the name of
    the table, or the tag number in decimal): looking a name up gives the
    value of the last tag bearing it, and nothing when no tag bears it. *)
Theorem exif_names_lookup {PIL : Pillow} (exif_raw : list (Z * pyval)) :
  (forall n,
     (forall t v, In (t, v) exif_raw -> exif_tag_name t <> n) ->
     assoc_get (KStr n) (exif_names exif_raw) = None) /\
  (forall pre t v post,
     exif_raw = pre ++ (t, v) :: post ->
     (forall t' v', In (t', v') post -> exif_tag_name t' <> exif_tag_name t) ->
     assoc_get (KStr (exif_tag_name t)) (exif_names exif_raw) = Some v).
Proof.
  split.
  - intros n H. unfold exif_names.
    now rewrite (@naming_get_other Z exif_tag_name n exif_raw [] H).
  - intros pre t v post -> H. unfold exif_names.
    apply (@naming_get_last Z exif_tag_name pre post t v [] H).
Qed.

Lemma exif_names_lookup_witness :
  assoc_get (KStr (lit "Make"))
    (@exif_names sample_pillow
       [(271%Z, VStr (lit "Canon")); (999%Z, VInt 1); (271%Z, VStr (lit "Nikon"))])
  = Some (VStr (lit "Nikon")) /\
  assoc_get (KStr (lit "Model"))
    (@exif_names sample_pillow
       [(271%Z, VStr (lit "Canon")); (999%Z, VInt 1); (271%Z, VStr (lit "Nikon"))])
  = None.
Proof.
  split.
  - apply (proj2 (@exif_names_lookup sample_pillow _)
             [(271%Z, VStr (lit "Canon")); (999%Z, VInt 1)] 271%Z
             (VStr (lit "Nikon")) [] eq_refl).
    intros t' v' [].
  - apply (proj1 (@exif_names_lookup sample_pillow _)).
    intros t v [[= <- <-] | [[= <- <-] | [[= <- <-] | []]]];
      vm_compute; discriminate.
Defined.

Section ExtractorFurther.
Context {RT : Runtime} {PIL : Pillow}.

Lemma py_getitem_only_exc (x : pyval) (i : nat) : only_exc (py_getitem x i).
Proof.
  destruct x; cbn; auto.
  - now destruct (nth_error s i).
  - now destruct (nth_error items i).
  - now destruct (nth_error items i).
  - now destruct (assoc_get (KInt (Z.of_nat i)) items).
Qed.

Lemma _rational_to_float_only_exc (x : pyval) : only_exc (_rational_to_float x).
Proof. now destruct (_rational_to_float_total x) as [r ->]. Qed.

(** What [_dms_to_decimal] raises is an [Exception]. *)
Lemma _dms_to_decimal_only_exc (dms ref : pyval) :
  only_exc (_dms_to_decimal dms ref).
Proof.
  unfold _dms_to_decimal.
  destruct (negb (py_truthy dms)); [exact I |].
  apply only_exc_bind; [now destruct dms | intros n].
  destruct (negb (Nat.eqb n 3)); [exact I |].
  repeat (apply only_exc_bind;
          [first [apply py_getitem_only_exc | apply _rational_to_float_only_exc]
          | intros ?]).
  now destruct (py_eq_str ref (lit "S") || py_eq_str ref (lit "W")).
Qed.

Lemma three_items_truthy (x a b c : pyval) :
  seq_items x = Some [a; b; c] -> py_truthy x = true.
Proof.
  destruct x as [| | | | s | | l | l |]; try discriminate; cbn;
    intros [= H]; try (now subst l).
  now destruct s as [| ? [| ? [| ? [| ? ?]]]].
Qed.

Lemma scalar_truthy_raises (dms ref : pyval) :
  scalar dms = true -> py_truthy dms = true ->
  exists msg, _dms_to_decimal dms ref = Raise (Exc msg).
Proof.
  intros Hs Ht. unfold _dms_to_decimal. rewrite Ht. cbn [negb].
  destruct dms; try discriminate; cbn; eauto.
Qed.

(** [parse_gps] returns a record, never the empty dictionary. *)
Lemma parse_gps_record (gps_info : list (pykey * pyval)) (g : gps_dict) :
  parse_gps gps_info = Ok g ->
  exists lat lon,
    g = Some {| raw := map (fun '(k, v) => (k, py_str v)) (gps_names gps_info);
                latitude_decimal := lat; longitude_decimal := lon |}.
Proof.
  unfold parse_gps.
  destruct (if _ && _ then _ else _) as [lat | e]; [| discriminate].
  cbn [bind].
  destruct (if _ && _ then _ else _) as [lon | e]; [| discriminate].
  cbn [bind]. intros [= <-]. eauto.
Qed.

End ExtractorFurther.

(** X6: when the EXIF block is empty, has no entry named GPSInfo, or has one
    that is not a mapping (an offset, a string), the extractor does not
    raise and returns the empty GPS record; the summary then has
    [has_gps = False]. *)
Theorem no_gps_mapping_gives_empty_gps
    {RT : Runtime} {PIL : Pillow} {OCR : OcrDeps} {OS : Platform}
    (img : Image) :
  (forall items,
     dict_get (KStr (lit "GPSInfo")) (exif_names (img_getexif img))
     <> VDict items) ->
  extract_exif img
  = Ok {| exif := exif_names (img_getexif img); gps := None |} /\
  (forall w p do_ocr data,
     Image_open w p = Ok img ->
     analyze_image w p do_ocr = Ok data ->
     i_gps data = None /\ has_gps (i_summary data) = false).
Proof.
  intros Hno.
  assert (Hex : extract_exif img
                = Ok {| exif := exif_names (img_getexif img); gps := None |}).
  { unfold extract_exif.
    destruct (Nat.eqb (List.length (img_getexif img)) 0) eqn:E.
    - apply length_zero_nil in E. now rewrite E.
    - destruct (dict_get (KStr (lit "GPSInfo")) (exif_names (img_getexif img)))
        eqn:Hg; try reflexivity.
      now destruct (Hno items). }
  split; [exact Hex |].
  intros w p do_ocr data Hopen. unfold analyze_image.
  rewrite Hopen. cbn [bind]. rewrite Hex. cbn [bind].
  destruct (if do_ocr then _ else _) as [o | e]; [| discriminate].
  cbn [bind]. intros [= <-]. split; reflexivity.
Qed.

Lemma no_gps_mapping_gives_empty_gps_witness :
  @extract_exif sample_runtime sample_pillow offset_gps_image
  = Ok {| exif := [(KStr (lit "GPSInfo"), VInt 4242)]; gps := None |}.
Proof.
  refine (proj1 (@no_gps_mapping_gives_empty_gps sample_runtime sample_pillow
                   no_ocr_deps sample_platform offset_gps_image _)).
  intros items H. vm_compute in H. discriminate H.
Defined.

(** X7: when the GPS mapping holds, for both axes, a raw value that is a
    sequence of three elements and a truthy reference, the extractor returns
    a GPS record with both decimal coordinates, each the normalizer's value
    for its pair. *)
Theorem complete_gps_gives_both_decimals {RT : Runtime} {PIL : Pillow}
    (img : Image) (gps_info : list (pykey * pyval))
    (a0 a1 a2 b0 b1 b2 : pyval) :
  dict_get (KStr (lit "GPSInfo")) (exif_names (img_getexif img)) = VDict gps_info ->
  seq_items (dict_get (KStr (lit "GPSLatitude")) (gps_names gps_info))
  = Some [a0; a1; a2] ->
  py_truthy (dict_get (KStr (lit "GPSLatitudeRef")) (gps_names gps_info)) = true ->
  seq_items (dict_get (KStr (lit "GPSLongitude")) (gps_names gps_info))
  = Some [b0; b1; b2] ->
  py_truthy (dict_get (KStr (lit "GPSLongitudeRef")) (gps_names gps_info)) = true ->
  exists d g lat lon,
    extract_exif img = Ok d /\ gps d = Some g /\
    latitude_decimal g = Some lat /\ longitude_decimal g = Some lon /\
    _dms_to_decimal (dict_get (KStr (lit "GPSLatitude")) (gps_names gps_info))
      (dict_get (KStr (lit "GPSLatitudeRef")) (gps_names gps_info))
    = Ok (Some lat) /\
    _dms_to_decimal (dict_get (KStr (lit "GPSLongitude")) (gps_names gps_info))
      (dict_get (KStr (lit "GPSLongitudeRef")) (gps_names gps_info))
    = Ok (Some lon).
Proof.
  intros Hinfo Hlat Hlatref Hlon Hlonref.
  destruct (_dms_to_decimal_three_some _
              (dict_get (KStr (lit "GPSLatitudeRef")) (gps_names gps_info))
              _ _ _ Hlat) as [lat Hla].
  destruct (_dms_to_decimal_three_some _
              (dict_get (KStr (lit "GPSLongitudeRef")) (gps_names gps_info))
              _ _ _ Hlon) as [lon Hlo].
  unfold extract_exif.
  destruct (Nat.eqb (List.length (img_getexif img)) 0) eqn:E.
  { apply length_zero_nil in E. rewrite E in Hinfo. discriminate Hinfo. }
  rewrite Hinfo. unfold parse_gps.
  rewrite (three_items_truthy _ _ _ _ Hlat), (three_items_truthy _ _ _ _ Hlon),
          Hlatref, Hlonref, Hla, Hlo. cbn.
  do 4 eexists. repeat split; eauto.
Qed.

Lemma complete_gps_gives_both_decimals_witness :
  exists d g lat lon,
    @extract_exif sample_runtime sample_pillow paris_image = Ok d /\
    gps d = Some g /\
    latitude_decimal g = Some lat /\ longitude_decimal g = Some lon.
Proof.
  destruct (@complete_gps_gives_both_decimals sample_runtime sample_pillow
              paris_image
              [ (KInt 1, VStr (lit "N"));
                (KInt 2, VTuple [VRational 48 1; VRational 51 1; VRational 29 1]);
                (KInt 3, VStr (lit "E"));
                (KInt 4, VTuple [VRational 2 1; VRational 17 1; VRational 40 1]) ]
              _ _ _ _ _ _ eq_refl eq_refl eq_refl eq_refl eq_refl)
    as (d & g & lat & lon & Hd & Hg & Hlat & Hlon & _).
  now exists d, g, lat, lon.
Defined.

(** X8: a GPS coordinate stored as a bare truthy number (not a sequence)
    next to a truthy reference makes the extractor raise: the TypeError of
    [len] is not caught. *)
Theorem scalar_gps_value_raises {RT : Runtime} {PIL : Pillow}
    (img : Image) (gps_info : list (pykey * pyval)) :
  dict_get (KStr (lit "GPSInfo")) (exif_names (img_getexif img)) = VDict gps_info ->
  (scalar (dict_get (KStr (lit "GPSLatitude")) (gps_names gps_info)) = true /\
   py_truthy (dict_get (KStr (lit "GPSLatitude")) (gps_names gps_info)) = true /\
   py_truthy (dict_get (KStr (lit "GPSLatitudeRef")) (gps_names gps_info)) = true)
  \/
  (scalar (dict_get (KStr (lit "GPSLongitude")) (gps_names gps_info)) = true /\
   py_truthy (dict_get (KStr (lit "GPSLongitude")) (gps_names gps_info)) = true /\
   py_truthy (dict_get (KStr (lit "GPSLongitudeRef")) (gps_names gps_info)) = true) ->
  exists msg, extract_exif img = Raise (Exc msg).
Proof.
  intros Hinfo Hbad. unfold extract_exif.
  destruct (Nat.eqb (List.length (img_getexif img)) 0) eqn:E.
  { apply length_zero_nil in E. rewrite E in Hinfo. discriminate Hinfo. }
  rewrite Hinfo. unfold parse_gps.
  set (named := gps_names gps_info) in *.
  set (lat_raw := dict_get (KStr (lit "GPSLatitude")) named) in *.
  set (lat_ref := dict_get (KStr (lit "GPSLatitudeRef")) named) in *.
  set (lon_raw := dict_get (KStr (lit "GPSLongitude")) named) in *.
  set (lon_ref := dict_get (KStr (lit "GPSLongitudeRef")) named) in *.
  destruct Hbad as [(Hs & Ht & Hr) | (Hs & Ht & Hr)].
  - rewrite Ht, Hr. cbn [andb].
    destruct (scalar_truthy_raises lat_raw lat_ref Hs Ht) as [msg ->]. cbn. eauto.
  - generalize (_dms_to_decimal_only_exc lat_raw lat_ref).
    destruct (py_truthy lat_raw && py_truthy lat_ref);
      [destruct (_dms_to_decimal lat_raw lat_ref) as [lat | [msg | msg]] |];
      cbn; intros Hexc; try contradiction; eauto;
      rewrite Ht, Hr; cbn [andb];
      destruct (scalar_truthy_raises lon_raw lon_ref Hs Ht) as [msg ->]; cbn; eauto.
Qed.

Lemma scalar_gps_value_raises_witness :
  exists msg,
    @extract_exif sample_runtime sample_pillow scalar_gps_image
    = Raise (Exc msg).
Proof.
  apply (@scalar_gps_value_raises sample_runtime sample_pillow scalar_gps_image
           [(KInt 1, VStr (lit "N")); (KInt 2, VInt 48)] eq_refl).
  left. repeat split.
Defined.

(** X9: the [raw] sub-map of the GPS record holds the [str()] of exactly the
    named GPS entries: each key of the GPS block appears under its name (a
    string key under itself, an unknown number in decimal), a later entry of
    the same name replacing an earlier one; names no entry bears are
    missing. *)
Theorem gps_raw_renders_named_entries {RT : Runtime} {PIL : Pillow}
    (gps_info : list (pykey * pyval)) (g : gps_record) :
  parse_gps gps_info = Ok (Some g) ->
  (forall pre k v post,
     gps_info = pre ++ (k, v) :: post ->
     (forall k' v', In (k', v') post -> gps_tag_name k' <> gps_tag_name k) ->
     assoc_get (KStr (gps_tag_name k)) (raw g) = Some (py_str v)) /\
  (forall n,
     (forall k v, In (k, v) gps_info -> gps_tag_name k <> n) ->
     assoc_get (KStr n) (raw g) = None).
Proof.
  intros Hg. destruct (parse_gps_record _ _ Hg) as (lat & lon & [= ->]).
  cbn [raw]. split.
  - intros pre k v post -> H. rewrite assoc_get_map. unfold gps_names.
    now rewrite (@naming_get_last pykey gps_tag_name pre post k v [] H).
  - intros n H. rewrite assoc_get_map. unfold gps_names.
    now rewrite (@naming_get_other pykey gps_tag_name n gps_info [] H).
Qed.

Lemma gps_raw_renders_named_entries_witness :
  exists g,
    @parse_gps sample_runtime sample_pillow
      [(KInt 1, VStr (lit "N")); (KStr (lit "Custom"), VInt 7); (KInt 99, VNone)]
    = Ok (Some g) /\
    assoc_get (KStr (lit "99")) (raw g) = Some (lit "None") /\
    assoc_get (KStr (lit "GPSLatitude")) (raw g) = None.
Proof.
  eexists. split; [vm_compute; reflexivity |]. split.
  - apply (proj1 (@gps_raw_renders_named_entries sample_runtime sample_pillow
                    [(KInt 1, VStr (lit "N")); (KStr (lit "Custom"), VInt 7);
                     (KInt 99, VNone)] _ eq_refl)
             [(KInt 1, VStr (lit "N")); (KStr (lit "Custom"), VInt 7)]
             (KInt 99) VNone [] eq_refl).
    intros k' v' [].
  - apply (proj2 (@gps_raw_renders_named_entries sample_runtime sample_pillow
                    [(KInt 1, VStr (lit "N")); (KStr (lit "Custom"), VInt 7);
                     (KInt 99, VNone)] _ eq_refl)).
    intros k v [[= <- <-] | [[= <- <-] | [[= <- <-] | []]]];
      vm_compute; discriminate.
Defined.

(** ** Stripping, once more *)

Lemma lstrip_app_nonspace (a b : pystr) (c : N) :
  isspace c = false -> lstrip (a ++ c :: b) = lstrip a ++ c :: b.
Proof.
  intros Hc. induction a as [| x a IH]; cbn.
  - now rewrite Hc.
  - destruct (isspace x); [exact IH | reflexivity].
Qed.

Lemma rstrip_cons_nonspace (c : N) (t : pystr) :
  isspace c = false -> rstrip (c :: t) = c :: rstrip t.
Proof.
  intros Hc. unfold rstrip. cbn [rev].
  rewrite (lstrip_app_nonspace (rev t) [] c Hc), rev_app_distr. reflexivity.
Qed.

Lemma rstrip_idempotent (s : pystr) : rstrip (rstrip s) = rstrip s.
Proof.
  unfold rstrip. rewrite rev_involutive. f_equal.
  induction (rev s) as [| c t IH]; cbn; [reflexivity |].
  destruct (isspace c) eqn:E; [exact IH | cbn; now rewrite E].
Qed.

Lemma lstrip_strip (s : pystr) : lstrip (strip s) = strip s.
Proof.
  unfold strip. destruct (lstrip s) as [| c t] eqn:E; [reflexivity |].
  pose proof (@lstrip_head s c t E) as Hc.
  rewrite (rstrip_cons_nonspace c t Hc). cbn. now rewrite Hc.
Qed.

Lemma strip_idempotent (s : pystr) : strip (strip s) = strip s.
Proof.
  unfold strip at 1. rewrite lstrip_strip. unfold strip.
  apply rstrip_idempotent.
Qed.

(** ** The OCR adapter, on every path *)

Section OcrFurther.
Context {OCR : OcrDeps}.

(** [try_ocr] lets no [Exception] out. *)
Lemma try_ocr_no_exception (image : Image) (msg : pystr) :
  try_ocr image <> Raise (Exc msg).
Proof.
  unfold try_ocr.
  destruct pytesseract as [image_to_string |]; [| discriminate].
  destruct (exif_transpose image) as [img | [m | m]]; cbn; try discriminate.
  destruct (image_to_string img) as [text0 | [m | m]]; cbn; try discriminate.
  destruct detect as [detect_ |];
    destruct (negb (Nat.eqb (List.length (strip text0)) 0)); cbn;
    try discriminate.
  destruct (detect_ (strip text0)) as [lang | [m | m]]; cbn; discriminate.
Qed.

End OcrFurther.

(** X10: with the engine installed, an [Exception] raised by the
    orientation correction or by the text extraction is caught: [try_ocr]
    returns [text = None], [language = None] and the note "OCR failed: "
    followed by the text of the exception.  No [Exception] ever leaves
    [try_ocr]. *)
Theorem ocr_failure_is_reported_in_note {OCR : OcrDeps}
    (image : Image) (image_to_string : Image -> result pystr) (msg : pystr) :
  pytesseract = Some image_to_string ->
  exif_transpose image = Raise (Exc msg) \/
  (exists img, exif_transpose image = Ok img /\
               image_to_string img = Raise (Exc msg)) ->
  try_ocr image
  = Ok {| text := None; language := None;
          note := Some (lit "OCR failed: " ++ msg) |} /\
  (forall image' msg', try_ocr image' <> Raise (Exc msg')).
Proof.
  intros Hengine Hfail. split; [| apply try_ocr_no_exception].
  unfold try_ocr. rewrite Hengine.
  destruct Hfail as [-> | (img & -> & Himg)]; cbn; [reflexivity |].
  rewrite Himg. reflexivity.
Qed.

Lemma ocr_failure_is_reported_in_note_witness :
  @try_ocr {| pytesseract := Some (fun _ => Raise (Exc (lit "tesseract is not installed")));
              detect := None;
              exif_transpose := fun img => Ok img |}
    paris_image
  = Ok {| text := None; language := None;
          note := Some (lit "OCR failed: tesseract is not installed") |}.
Proof.
  refine (proj1 (@ocr_failure_is_reported_in_note
                   {| pytesseract := Some (fun _ => Raise (Exc (lit "tesseract is not installed")));
                      detect := None;
                      exif_transpose := fun img => Ok img |}
                   paris_image _ (lit "tesseract is not installed") eq_refl _)).
  right. exists paris_image. split; reflexivity.
Defined.

(** X11: in every result of [try_ocr], a language comes with a text and
    without a note, and a note comes without a language. *)
Theorem ocr_result_fields_are_consistent {OCR : OcrDeps}
    (image : Image) (r : ocr_result) :
  try_ocr image = Ok r ->
  (forall lang, language r = Some lang ->
     (exists t, text r = Some t) /\ note r = None) /\
  (forall n, note r = Some n -> language r = None).
Proof.
  unfold try_ocr.
  destruct pytesseract as [image_to_string |];
    [| intros [= <-]; cbn; split; [discriminate | reflexivity]].
  destruct (exif_transpose image) as [img | [m | m]]; cbn;
    [| intros [= <-]; cbn; split; [discriminate | reflexivity] | discriminate].
  destruct (image_to_string img) as [text0 | [m | m]]; cbn;
    [| intros [= <-]; cbn; split; [discriminate | reflexivity] | discriminate].
  destruct detect as [detect_ |];
    destruct (negb (Nat.eqb (List.length (strip text0)) 0)); cbn;
    try (intros [= <-]; cbn; split; [discriminate | reflexivity || discriminate]).
  destruct (detect_ (strip text0)) as [lang | [m | m]]; cbn;
    [| | discriminate]; intros [= <-]; cbn; split; try discriminate.
  intros lang' _. split; [eauto | reflexivity].
Qed.

Lemma ocr_result_fields_are_consistent_witness :
  language {| text := None; language := None;
              note := Some (lit "pytesseract not installed; skip OCR.") |}
  = None.
Proof.
  exact (proj2 (@ocr_result_fields_are_consistent no_ocr_deps paris_image
                  _ eq_refl) _ eq_refl).
Defined.

(** X12: a text returned by [try_ocr] is the engine's output stripped, and
    stripping it again changes nothing: it has no leading or trailing
    blank. *)
Theorem ocr_text_is_stripped {OCR : OcrDeps}
    (image : Image) (r : ocr_result) (t : pystr) :
  try_ocr image = Ok r ->
  text r = Some t ->
  strip t = t /\
  exists image_to_string img text0,
    pytesseract = Some image_to_string /\
    exif_transpose image = Ok img /\
    image_to_string img = Ok text0 /\
    t = strip text0.
Proof.
  unfold try_ocr.
  destruct pytesseract as [image_to_string |]; [| intros [= <-]; discriminate].
  destruct (exif_transpose image) as [img | [m | m]]; cbn;
    [| intros [= <-]; discriminate | discriminate].
  destruct (image_to_string img) as [text0 | [m | m]] eqn:Hread; cbn;
    [| intros [= <-]; discriminate | discriminate].
  assert (Hgoal : Some (strip text0) = Some t ->
            strip t = t /\
            exists image_to_string' img' text0',
              Some image_to_string = Some image_to_string' /\
              Ok img = Ok img' /\ image_to_string' img' = Ok text0' /\
              t = strip text0').
  { intros [= <-]. split; [apply strip_idempotent |].
    exists image_to_string, img, text0. auto. }
  destruct detect as [detect_ |];
    destruct (negb (Nat.eqb (List.length (strip text0)) 0)); cbn;
    try (intros [= <-]; cbn; first [discriminate | exact Hgoal]).
  destruct (detect_ (strip text0)) as [lang | [m | m]]; cbn;
    [| | discriminate]; intros [= <-]; cbn; exact Hgoal.
Qed.

Lemma ocr_text_is_stripped_witness :
  strip (lit "42") = lit "42".
Proof.
  exact (proj1 (@ocr_text_is_stripped failing_detect_deps paris_image
                  _ (lit "42") eq_refl eq_refl)).
Defined.

(** X13: when the engine extracts a text that is not blank, the language is
    the one [detect] returns, without note; and when langdetect is not
    installed the language is [None] and the note says so. *)
Theorem ocr_language_of_text {OCR : OcrDeps}
    (image img : Image) (image_to_string : Image -> result pystr)
    (text0 : pystr) :
  pytesseract = Some image_to_string ->
  exif_transpose image = Ok img ->
  image_to_string img = Ok text0 ->
  strip text0 <> [] ->
  (forall detect_ lang,
     detect = Some detect_ -> detect_ (strip text0) = Ok lang ->
     try_ocr image
     = Ok {| text := Some (strip text0); language := Some lang; note := None |}) /\
  (detect = None ->
   try_ocr image
   = Ok {| text := Some (strip text0); language := None;
           note := Some (lit "langdetect not installed; language not detected.") |}).
Proof.
  intros Hengine Htr Hread Hne.
  assert (E : Nat.eqb (List.length (strip text0)) 0 = false).
  { destruct (Nat.eqb (List.length (strip text0)) 0) eqn:E; [| reflexivity].
    apply length_zero_nil in E. contradiction. }
  unfold try_ocr. rewrite Hengine, Htr. cbn [bind]. rewrite Hread. cbn [bind].
  rewrite E. split.
  - intros detect_ lang -> Hlang. cbn. now rewrite Hlang.
  - intros ->. reflexivity.
Qed.

Lemma ocr_language_of_text_witness :
  @try_ocr {| pytesseract := Some (fun _ => Ok (lit " Bonjour "));
              detect := Some (fun _ => Ok (lit "fr"));
              exif_transpose := fun img => Ok img |}
    paris_image
  = Ok {| text := Some (lit "Bonjour"); language := Some (lit "fr");
          note := None |}.
Proof.
  refine (proj1 (@ocr_language_of_text
                   {| pytesseract := Some (fun _ => Ok (lit " Bonjour "));
                      detect := Some (fun _ => Ok (lit "fr"));
                      exif_transpose := fun img => Ok img |}
                   paris_image paris_image _ (lit " Bonjour ")
                   eq_refl eq_refl eq_refl _) _ (lit "fr") eq_refl eq_refl).
  vm_compute. discriminate.
Defined.

(** ** Files: storing and looking up *)


Lemma pystr_eqb_neq (p q : pystr) : p <> q -> pystr_eqb p q = false.
Proof.
  intros H. destruct (pystr_eqb p q) eqn:E; [| reflexivity].
  apply pystr_eqb_eq in E. contradiction.
Qed.


Lemma fs_lookup_store_other (p q : pystr) (n : node)
    (files : list (pystr * node)) :
  q <> p -> fs_lookup q (fs_store p n files) = fs_lookup q files.
Proof.
  intros Hq. induction files as [| [p0 m] files IH]; cbn.
  - now rewrite pystr_eqb_neq.
  - destruct (pystr_eqb p p0) eqn:E; cbn.
    + apply pystr_eqb_eq in E. subst p0. now rewrite pystr_eqb_neq.
    + destruct (pystr_eqb q p0); [reflexivity | exact IH].
Qed.


(** ** The analysis, the report and the command line *)

Section RunFurther.
Context {RT : Runtime} {PIL : Pillow} {OCR : OcrDeps} {OS : Platform}
        {JS : Json}.


Lemma json_dumps_rejects (data : info) :
  info_serialisable data = false -> exists msg, json_dumps data = Raise (Exc msg).
Proof. intros H. unfold json_dumps. rewrite H. eauto. Qed.

(** A value [json.dumps] rejects makes [write_report] raise at once. *)
Lemma write_report_rejected (data : info) (out_path : pystr) (w : world) :
  info_serialisable data = false ->
  exists msg, write_report data out_path w = (Raise (Exc msg), w).
Proof.
  intros H. unfold write_report.
  destruct (json_dumps_rejects data H) as [msg ->]. eauto.
Qed.

(** What [write_report] leaves alone. *)
Lemma write_report_frame (data : info) (out_path : pystr) (w : world) :
  stderr (snd (write_report data out_path w)) = stderr w /\
  (forall q, q <> out_path ->
     fs_lookup q (fs (snd (write_report data out_path w))) = fs_lookup q (fs w)).
Proof.
  unfold write_report, write_text.
  destruct (json_dumps data) as [document | e]; [| now split].
  destruct (negb (Nat.eqb (List.length out_path) 0)); cbn; [| auto].
  destruct (fs_lookup out_path (fs w)) as [[c |] |]; cbn;
    repeat split; auto; intros q Hq; now apply fs_lookup_store_other.
Qed.



Lemma unserialisable_entry (data : info) (k : pykey) (v : pyval) :
  In (k, v) (i_exif data) -> json_serialisable v = false ->
  info_serialisable data = false.
Proof.
  intros Hin Hv. unfold info_serialisable.
  assert (H : forallb (fun '(_, v) => json_serialisable v) (i_exif data) = false).
  { destruct (forallb _ (i_exif data)) eqn:E; [| reflexivity].
    rewrite forallb_forall in E. specialize (E (k, v) Hin). cbn in E.
    congruence. }
  rewrite H. now rewrite !andb_false_r.
Qed.

End RunFurther.

(** X14: asking for OCR only adds the ["ocr"] entry.  Without the flag the
    result has no such entry; with it, the other entries are those of the
    run without it; and a run that succeeds without OCR succeeds with it,
    unless the OCR collaborators raise something that is not an
    [Exception]. *)
Theorem ocr_flag_only_adds_ocr_entry
    {RT : Runtime} {PIL : Pillow} {OCR : OcrDeps} {OS : Platform}
    (w : world) (p : pystr) :
  (forall d0, analyze_image w p false = Ok d0 -> i_ocr d0 = None) /\
  (forall d1, analyze_image w p true = Ok d1 ->
     exists d0 o,
       analyze_image w p false = Ok d0 /\ i_ocr d1 = Some o /\
       i_file d1 = i_file d0 /\ i_exif d1 = i_exif d0 /\
       i_gps d1 = i_gps d0 /\ i_summary d1 = i_summary d0) /\
  (forall d0, analyze_image w p false = Ok d0 ->
     (exists d1, analyze_image w p true = Ok d1) \/
     (exists msg, analyze_image w p true = Raise (BaseExc msg))).
Proof.
  unfold analyze_image.
  destruct (Image_open w p) as [img | e]; cbn [bind];
    [| repeat split; intros; discriminate].
  destruct (extract_exif img) as [d | e]; cbn [bind];
    [| repeat split; intros; discriminate].
  repeat split.
  - now intros d0 [= <-].
  - intros d1. destruct (try_ocr img) as [o | e]; cbn [bind]; [| discriminate].
    intros [= <-]. eexists. exists o. repeat split.
  - intros d0 _. pose proof (try_ocr_no_exception img) as Hno.
    destruct (try_ocr img) as [o | [msg | msg]]; cbn [bind]; eauto.
    now destruct (Hno msg).
Qed.

Lemma ocr_flag_only_adds_ocr_entry_witness :
  exists d0 o,
    @analyze_image sample_runtime sample_pillow blank_ocr_deps sample_platform
      sample_world (lit "paris.jpg") false = Ok d0 /\
    o = {| text := None; language := None; note := None |} /\
    i_ocr d0 = None.
Proof.
  destruct (proj1 (proj2 (@ocr_flag_only_adds_ocr_entry sample_runtime
              sample_pillow blank_ocr_deps sample_platform sample_world
              (lit "paris.jpg"))) _ eq_refl)
    as (d0 & o & H0 & Ho & _).
  exists d0, o. split; [exact H0 |]. split.
  - vm_compute in Ho. now injection Ho as <-.
  - exact (proj1 (@ocr_flag_only_adds_ocr_entry sample_runtime sample_pillow
                    blank_ocr_deps sample_platform sample_world
                    (lit "paris.jpg")) d0 H0).
Defined.





(** X17: whatever happens, [main] leaves every file other than the one at
    the output path as it was; when the image path exists it prints nothing
    on standard error; and it ends through [sys.exit(1)] exactly when the
    image path does not exist. *)
Theorem main_touches_only_output
    {RT : Runtime} {PIL : Pillow} {OCR : OcrDeps} {OS : Platform} {JS : Json}
    (a : args) (w : world) :
  (forall q, q <> out a ->
     fs_lookup q (fs (snd (main a w))) = fs_lookup q (fs w)) /\
  (os_path_exists w (image a) = true -> stderr (snd (main a w)) = stderr w) /\
  (fst (main a w) = Exit 1 <-> os_path_exists w (image a) = false).
Proof.
  unfold main.
  destruct (os_path_exists w (image a)); cbn [negb].
  - destruct (analyze_image w (image a) (ocr a)) as [data | e]; cbn.
    + destruct (write_report_frame data (out a) w) as (Herr & Hfs).
      destruct (write_report data (out a) w) as [[[] | e] w'];
        cbn [fst snd] in *; repeat split; auto; discriminate.
    + repeat split; auto; discriminate.
  - cbn. repeat split; auto; discriminate.
Qed.

Lemma main_touches_only_output_witness :
  fs_lookup (lit "paris.jpg")
    (fs (snd (@main sample_runtime pairs_pillow no_ocr_deps sample_platform
                sample_json
                {| image := lit "paris.jpg"; ocr := false;
                   out := lit "output.txt" |}
                pairs_world)))
  = Some (File [3%Z]).
Proof.
  refine (proj1 (@main_touches_only_output sample_runtime pairs_pillow
                   no_ocr_deps sample_platform sample_json
                   {| image := lit "paris.jpg"; ocr := false;
                      out := lit "output.txt" |}
                   pairs_world) (lit "paris.jpg") _).
  vm_compute. discriminate.
Defined.

(** X18: an image path that exists but is a directory, or a file the
    decoder rejects, or an image whose metadata make the extractor raise,
    ends the run with the exception uncaught, before anything is printed or
    written: the streams and the files are as they were. *)
Theorem main_propagates_analysis_errors
    {RT : Runtime} {PIL : Pillow} {OCR : OcrDeps} {OS : Platform} {JS : Json}
    (a : args) (w : world) :
  (fs_lookup (image a) (fs w) = Some Dir ->
   exists msg, main a w = (Uncaught (Exc msg), w)) /\
  (forall content e,
     fs_lookup (image a) (fs w) = Some (File content) ->
     image_open content = Raise e ->
     main a w = (Uncaught e, w)) /\
  (forall content img e,
     fs_lookup (image a) (fs w) = Some (File content) ->
     image_open content = Ok img ->
     extract_exif img = Raise e ->
     main a w = (Uncaught e, w)).
Proof.
  unfold main, os_path_exists, analyze_image, Image_open.
  repeat split.
  - intros ->. cbn. eauto.
  - intros content e Hf Ho. rewrite Hf. cbn -[extract_exif try_ocr].
    now rewrite Ho.
  - intros content img e Hf Ho He. rewrite Hf. cbn -[extract_exif try_ocr].
    rewrite Ho. cbn -[extract_exif try_ocr]. now rewrite He.
Qed.

Lemma main_propagates_analysis_errors_witness :
  @main sample_runtime sample_pillow no_ocr_deps sample_platform sample_json
    {| image := lit "notes.txt"; ocr := false; out := lit "output.txt" |}
    {| fs := [(lit "notes.txt", File [104%Z; 105%Z])];
       stdout := []; stderr := [] |}
  = (Uncaught (Exc (lit "cannot identify image file")),
     {| fs := [(lit "notes.txt", File [104%Z; 105%Z])];
        stdout := []; stderr := [] |}).
Proof.
  exact (proj1 (proj2 (@main_propagates_analysis_errors sample_runtime
                  sample_pillow no_ocr_deps sample_platform sample_json
                  {| image := lit "notes.txt"; ocr := false;
                     out := lit "output.txt" |}
                  {| fs := [(lit "notes.txt", File [104%Z; 105%Z])];
                     stdout := []; stderr := [] |}))
           [104%Z; 105%Z] _ eq_refl eq_refl).
Defined.

(** Joining: an entry that is not the first is a whole line of the text. *)
Lemma join_cons (sep l : pystr) (rest : list pystr) :
  rest <> [] -> join sep (l :: rest) = l ++ sep ++ join sep rest.
Proof. destruct rest; [now intros [] | reflexivity]. Qed.

Lemma join_app (sep : pystr) (a b : list pystr) :
  a <> [] -> b <> [] -> join sep (a ++ b) = join sep a ++ sep ++ join sep b.
Proof.
  intros Ha Hb. induction a as [| l a IH]; [now destruct Ha |].
  destruct a as [| l' a].
  - cbn [app]. rewrite join_cons by exact Hb. reflexivity.
  - change ((l :: l' :: a) ++ b) with (l :: ((l' :: a) ++ b)).
    rewrite !join_cons by discriminate.
    rewrite IH by discriminate. now rewrite <- !app_assoc.
Qed.

Lemma join_middle (c : N) (pre : list pystr) (l : pystr) (post : list pystr) :
  pre <> [] ->
  exists suffix,
    join [c] (pre ++ [l] ++ post) = join [c] pre ++ [c] ++ l ++ suffix /\
    (suffix = [] \/ exists rest, suffix = c :: rest).
Proof.
  intros Hpre. rewrite join_app by (exact Hpre || discriminate).
  destruct post as [| l' post].
  - exists []. split; [cbn; now rewrite app_nil_r | now left].
  - exists ([c] ++ join [c] (l' :: post)). split.
    + cbn [app]. rewrite join_cons by discriminate. reflexivity.
    + right. exists (join [c] (l' :: post)). reflexivity.
Qed.

(** X19: when the summary of an analysis says [has_gps], the GPS record
    holds a latitude and a longitude, and in the list [lines] of the report
    the twelfth entry states "GPS present" as true and the thirteenth gives
    these two numbers, the latitude first then the longitude, never [None];
    in the text of the report that entry is a whole line, after a newline
    and before a newline or the end of the text. *)
Theorem has_gps_report_shows_both_coordinates
    {RT : Runtime} {PIL : Pillow} {OCR : OcrDeps} {OS : Platform}
    (w : world) (p : pystr) (do_ocr : bool) (data : info) :
  analyze_image w p do_ocr = Ok data ->
  has_gps (i_summary data) = true ->
  exists g lat lon,
    i_gps data = Some g /\
    latitude_decimal g = Some lat /\
    longitude_decimal g = Some lon /\
    nth_error (report_lines data) 11
    = Some (lit "- GPS present: " ++ py_str (VBool true)) /\
    nth_error (report_lines data) 12
    = Some (lit "- GPS (decimal): " ++ py_str (VFloat lat)
            ++ lit ", " ++ py_str (VFloat lon)) /\
    exists prefix suffix,
      join [10%N] (report_lines data)
      = prefix ++ [10%N]
        ++ (lit "- GPS (decimal): " ++ py_str (VFloat lat)
            ++ lit ", " ++ py_str (VFloat lon))
        ++ suffix /\
      (suffix = [] \/ exists rest, suffix = 10%N :: rest).
Proof.
  unfold analyze_image.
  destruct (Image_open w p) as [img | e]; [| discriminate]. cbn [bind].
  destruct (extract_exif img) as [d | e]; [| discriminate]. cbn [bind].
  destruct (if do_ocr then _ else _) as [o | e]; [| discriminate].
  cbn [bind]. intros [= <-]. cbn [i_summary has_gps].
  destruct (gps d) as [g |] eqn:Hg; [| discriminate].
  cbn [gps_get_latitude gps_get_longitude].
  destruct (latitude_decimal g) as [lat |] eqn:Hlat; [| discriminate].
  destruct (longitude_decimal g) as [lon |] eqn:Hlon; [| discriminate].
  intros _. exists g, lat, lon. unfold report_lines, gps_decimal_line.
  cbn [i_gps i_summary has_gps i_file gps_get_latitude gps_get_longitude
       is_not_None andb].
  rewrite Hlat, Hlon. cbn [fmt_float].
  repeat (split; [reflexivity |]).
  match goal with
  | |- context [join _ (?pre ++ [?l] ++ ?post)] =>
      destruct (join_middle 10%N pre l post ltac:(discriminate))
        as (suffix & Hj & Hs)
  end.
  eexists. exists suffix. split; [exact Hj | exact Hs].
Qed.

Lemma has_gps_report_shows_both_coordinates_witness :
  exists data g lat lon,
    @analyze_image sample_runtime pairs_pillow no_ocr_deps sample_platform
      pairs_world (lit "paris.jpg") false = Ok data /\
    i_gps data = Some g /\
    latitude_decimal g = Some lat /\
    longitude_decimal g = Some lon /\
    nth_error (@report_lines sample_runtime data) 12
    = Some (lit "- GPS (decimal): " ++ @py_str sample_runtime (VFloat lat)
            ++ lit ", " ++ @py_str sample_runtime (VFloat lon)).
Proof.
  eexists.
  destruct (@has_gps_report_shows_both_coordinates sample_runtime
              pairs_pillow no_ocr_deps sample_platform pairs_world
              (lit "paris.jpg") false _ eq_refl eq_refl)
    as (g & lat & lon & Hg & Hlat & Hlon & _ & H & _).
  exists g, lat, lon. split; [reflexivity |]. auto.
Defined.

(** X20: the capture time of the summary is the value of the
    DateTimeOriginal tag when that value is truthy; when no tag bears that
    name, or its value is empty, it is the value of the DateTime tag, and
    [None] when there is none either. *)
Theorem datetime_original_falls_back
    {RT : Runtime} {PIL : Pillow} {OCR : OcrDeps} {OS : Platform}
    (w : world) (p : pystr) (do_ocr : bool) (img : Image) (data : info) :
  Image_open w p = Ok img ->
  analyze_image w p do_ocr = Ok data ->
  (py_truthy (dict_get (KStr (lit "DateTimeOriginal")) (i_exif data)) = true ->
   datetime_original (i_summary data)
   = dict_get (KStr (lit "DateTimeOriginal")) (i_exif data)) /\
  (py_truthy (dict_get (KStr (lit "DateTimeOriginal")) (i_exif data)) = false ->
   datetime_original (i_summary data)
   = dict_get (KStr (lit "DateTime")) (i_exif data)) /\
  ((forall t v, In (t, v) (img_getexif img) ->
      exif_tag_name t <> lit "DateTimeOriginal") ->
   (forall t v, In (t, v) (img_getexif img) ->
      exif_tag_name t <> lit "DateTime") ->
   datetime_original (i_summary data) = VNone).
Proof.
  intros Hopen. unfold analyze_image. rewrite Hopen. cbn [bind].
  destruct (extract_exif img) as [d | e] eqn:Hex; [| discriminate].
  cbn [bind].
  destruct (if do_ocr then _ else _) as [o | e]; [| discriminate].
  cbn [bind]. intros [= <-]. cbn [i_summary i_exif datetime_original].
  unfold py_or. repeat split.
  - now intros ->.
  - now intros ->.
  - intros Hdto Hdt.
    assert (Hexif : exif d = exif_names (img_getexif img)).
    { revert Hex. unfold extract_exif.
      destruct (Nat.eqb (List.length (img_getexif img)) 0) eqn:E.
      - apply length_zero_nil in E. rewrite E. now intros [= <-].
      - destruct (match dict_get _ _ with VDict items => _ | _ => _ end);
          [| discriminate].
        cbn. now intros [= <-]. }
    rewrite Hexif. unfold dict_get, exif_names.
    rewrite (@naming_get_other Z exif_tag_name _ _ [] Hdto).
    rewrite (@naming_get_other Z exif_tag_name _ _ [] Hdt).
    reflexivity.
Qed.

Lemma datetime_original_falls_back_witness :
  exists data,
    @analyze_image sample_runtime sample_pillow no_ocr_deps sample_platform
      sample_world (lit "paris.jpg") false = Ok data /\
    datetime_original (i_summary data) = VNone.
Proof.
  eexists. split; [vm_compute; reflexivity |].
  refine (proj2 (proj2 (@datetime_original_falls_back sample_runtime
            sample_pillow no_ocr_deps sample_platform sample_world
            (lit "paris.jpg") false paris_image _ eq_refl eq_refl)) _ _).
  - intros t v [[= <- <-] | [[= <- <-] | []]]; vm_compute; discriminate.
  - intros t v [[= <- <-] | [[= <- <-] | []]]; vm_compute; discriminate.
Defined.

(** X21: when the analysis succeeds but one of the EXIF values it returns
    is one [json.dumps] rejects (a rational object, directly or inside a
    tuple, a list or the GPS mapping), [main] ends with the TypeError
    uncaught, before anything is printed or written: the streams and the
    files are as they were. *)
Theorem main_unserialisable_metadata_uncaught
    {RT : Runtime} {PIL : Pillow} {OCR : OcrDeps} {OS : Platform} {JS : Json}
    (a : args) (w : world) (data : info) (k : pykey) (v : pyval) :
  os_path_exists w (image a) = true ->
  analyze_image w (image a) (ocr a) = Ok data ->
  In (k, v) (i_exif data) ->
  json_serialisable v = false ->
  exists msg, main a w = (Uncaught (Exc msg), w).
Proof.
  intros Hex Han Hin Hv.
  pose proof (unserialisable_entry data k v Hin Hv) as Hjs.
  destruct (write_report_rejected data (out a) w Hjs) as [msg Hw].
  exists msg. unfold main. now rewrite Hex, Han, Hw.
Qed.

Lemma main_unserialisable_metadata_uncaught_witness :
  exists msg,
    @main sample_runtime sample_pillow no_ocr_deps sample_platform sample_json
      {| image := lit "paris.jpg"; ocr := false; out := lit "output.txt" |}
      sample_world
    = (Uncaught (Exc msg), sample_world).
Proof.
  destruct (@analyze_image sample_runtime sample_pillow no_ocr_deps
              sample_platform sample_world (lit "paris.jpg") false)
    as [data | e] eqn:E; [| vm_compute in E; discriminate E].
  apply (@main_unserialisable_metadata_uncaught sample_runtime sample_pillow
           no_ocr_deps sample_platform sample_json
           {| image := lit "paris.jpg"; ocr := false; out := lit "output.txt" |}
           sample_world data (KStr (lit "GPSInfo"))
           (VDict [ (KInt 1, VStr (lit "N"));
                    (KInt 2, VTuple [VRational 48 1; VRational 51 1; VRational 29 1]);
                    (KInt 3, VStr (lit "E"));
                    (KInt 4, VTuple [VRational 2 1; VRational 17 1; VRational 40 1]) ])
           eq_refl E).
  - vm_compute in E. injection E as <-. right. left. reflexivity.
  - reflexivity.
Defined.
